(** * Order placement, cart and order status handlers of the e-commerce backend

    A shallow embedding of [src/controllers/orderController.js] and
    [src/controllers/cartController.js].

    - A JavaScript [Number] that holds money is an IEEE 754 double
      ([float]): prices are added, multiplied and compared with the
      operations of binary64, in the order the code applies them.  Stock
      levels and quantities are integers ([Z]); where a quantity is
      multiplied with a price it is the double nearest to it.
    - What a request carries is kept as the client sent it: a product id
      is a string that Mongoose casts and that the handlers compare as a
      string, a quantity in a JSON body is a number or a numeric string.
    - A MongoDB collection is a finite map from the document key to the
      document; the three collections the handlers touch form the record
      [db].  The Cart collection is keyed by the owning user (one cart per
      user), which is how every handler looks a cart up.
    - A handler is a function from the request and the database to what it
      did (a JSON response, or an exception left to the error middleware)
      and the database it leaves behind. *)

From Stdlib Require Import ZArith Ascii Floats.
From stdpp Require Import gmap strings list pretty.

Local Open Scope Z_scope.
Set Warnings "-inexact-float".

(** ** Documents *)

Definition ObjectId := N.

(** models/Product.js: the fields the handlers read. *)
Record Product := mkProduct {
  name : string;
  price : float;
  stock : Z;
  images : list string;
  isActive : bool
}.

(** A cart line as stored: [{ product, quantity, price }]. *)
Record CartItem := mkCartItem {
  product : ObjectId;
  quantity : Z;
  item_price : float
}.

(** A cart document.  Its [user] field is the key it is stored under in
    [carts]. *)
Record Cart := mkCart {
  cart_id : ObjectId;
  items : list CartItem
}.

(** A cart line after [.populate('items.product')]: the reference is
    replaced by the product document, or by [null] when it is gone;
    [p_ref] is the reference the line was populated from, which is the
    document's [_id] and what is written back on save. *)
Record PopulatedItem := mkPopulatedItem {
  p_product : option Product;
  p_ref : ObjectId;
  p_quantity : Z;
  p_price : float
}.

Record PopulatedCart := mkPopulatedCart {
  pc_id : ObjectId;
  pc_user : ObjectId;
  pc_items : list PopulatedItem
}.

(** An element of [orderItems]. *)
Record OrderItem := mkOrderItem {
  oi_product : ObjectId;
  oi_name : string;
  oi_quantity : Z;
  oi_price : float;
  oi_image : string
}.

Record ShippingAddress := mkShippingAddress {
  fullName : string;
  address : string;
  city : string;
  postalCode : string;
  country : string
}.

(** The object handed to [Order.create]. *)
Record OrderData := mkOrderData {
  od_user : ObjectId;
  od_orderItems : list OrderItem;
  od_shippingAddress : ShippingAddress;
  od_paymentMethod : string;
  od_itemsPrice : float;
  od_taxPrice : float;
  od_shippingPrice : float;
  od_totalPrice : float
}.

(** An order document.  Its [_id] is the key it is stored under in
    [orders]. *)
Record Order := mkOrder {
  order_data : OrderData;
  status : string;
  isPaid : bool;
  paidAt : option Z;
  paymentResult : option string;
  isDelivered : bool;
  deliveredAt : option Z
}.

(** The persisted state: the three collections, and the counter the
    driver draws the [_id] of a new document from. *)
Record db := mkDb {
  products : gmap ObjectId Product;
  carts : gmap ObjectId Cart;
  orders : gmap ObjectId Order;
  next_id : ObjectId
}.

(** ** Responses *)

(** [res.status(s).json({ success, message, data })]. *)
Record response (D : Type) := mkResponse {
  res_status : Z;
  success : bool;
  message : option string;
  data : option D
}.
Arguments mkResponse {D} _ _ _ _.
Arguments res_status {D} _.
Arguments success {D} _.
Arguments message {D} _.
Arguments data {D} _.

(** What a handler wrapped in [asyncHandler] ends with: a response it
    sent, or an exception passed on to the error middleware. *)
Inductive outcome (D : Type) :=
  | Responded (r : response D)
  | Thrown (e : string).
Arguments Responded {D} r.
Arguments Thrown {D} e.

Definition fail400 {D} (msg : string) : response D :=
  mkResponse 400 false (Some msg) None.
Definition fail403 {D} (msg : string) : response D :=
  mkResponse 403 false (Some msg) None.
Definition fail404 {D} (msg : string) : response D :=
  mkResponse 404 false (Some msg) None.

(** ** Handlers as database transformers *)

(** An [async] handler body: it runs against the database, leaves a
    database behind, and either returns a value or throws. *)
Definition M (A : Type) : Type := db -> (string + A) * db.

Definition ret {A} (a : A) : M A := fun w => (inr a, w).
Definition throw {A} (e : string) : M A := fun w => (inl e, w).
Definition bind {A B} (m : M A) (k : A -> M B) : M B :=
  fun w => match m w with
           | (inl e, w') => (inl e, w')
           | (inr a, w') => k a w'
           end.

Notation "'do' x <- m ; k" := (bind m (fun x => k))
  (at level 10, x name, m at level 100, k at level 200).

(** [asyncHandler(fn)]: the handler's response, or the exception it let
    escape. *)
Definition asyncHandler {D} (m : M (response D)) (w : db) : outcome D * db :=
  match m w with
  | (inl e, w') => (Thrown e, w')
  | (inr r, w') => (Responded r, w')
  end.

(** ** Small JavaScript helpers *)

(** The JS Number that holds the integer [z]: the double nearest to it
    (exactly [z] up to 2^53). *)
Definition Number_of_Z (z : Z) : float :=
  SF2Prim (binary_normalize prec emax z 0 false).

(** [a > b] on Numbers; [false] when either is [NaN]. *)
Definition Number_gt (a b : float) : bool := (b <? a)%float.

(** [arr[0] || ''] *)
Definition first_or_empty (l : list string) : string :=
  match l with
  | [] => ""
  | s :: _ => s
  end.

(** [arr.findIndex(f)], [None] for [-1]. *)
Fixpoint findIndex {A} (f : A -> bool) (l : list A) : option nat :=
  match l with
  | [] => None
  | x :: l' => if f x then Some O else S <$> findIndex f l'
  end.

(** ** Collection operations *)

Definition set_stock (s : Z) (p : Product) : Product :=
  mkProduct (name p) (price p) s (images p) (isActive p).

Definition set_items (its : list CartItem) (c : Cart) : Cart :=
  mkCart (cart_id c) its.

(** What [populate] makes of one stored cart line. *)
Definition populate_item (ps : gmap ObjectId Product) (it : CartItem) : PopulatedItem :=
  mkPopulatedItem (ps !! product it) (product it) (quantity it) (item_price it).

Definition populate_cart (ps : gmap ObjectId Product) (user : ObjectId) (c : Cart)
  : PopulatedCart :=
  mkPopulatedCart (cart_id c) user (map (populate_item ps) (items c)).

(** What is written back for a populated line: the reference. *)
Definition depopulate_item (it : PopulatedItem) : CartItem :=
  mkCartItem (p_ref it) (p_quantity it) (p_price it).

(** [Cart.findOne({ user }).populate('items.product')] *)
Definition Cart_findOne_populated (user : ObjectId) : M (option PopulatedCart) :=
  fun w => (inr (populate_cart (products w) user <$> carts w !! user), w).

(** [Cart.findOne({ user })] *)
Definition Cart_findOne (user : ObjectId) : M (option Cart) :=
  fun w => (inr (carts w !! user), w).

(** [Cart.create({ user, items: [] })] *)
Definition Cart_create (user : ObjectId) : M Cart :=
  fun w =>
    let c := mkCart (next_id w) [] in
    (inr c, mkDb (products w) (<[user := c]> (carts w)) (orders w) (N.succ (next_id w))).

(** [cart.items = its; await cart.save()]: only the [items] path of the
    stored document is written. *)
Definition Cart_save_items (user : ObjectId) (its : list CartItem) : M unit :=
  fun w => (inr tt, mkDb (products w) (alter (set_items its) user (carts w)) (orders w) (next_id w)).

(** [Product.findById(id)] *)
Definition Product_findById (id : ObjectId) : M (option Product) :=
  fun w => (inr (products w !! id), w).

(** [Product.findByIdAndUpdate(id, { $inc: { stock: delta } })]: no
    condition on the stored value, no validators run. *)
Definition Product_incStock (id : ObjectId) (delta : Z) : M unit :=
  fun w =>
    (inr tt,
     mkDb (alter (fun p => set_stock (stock p + delta) p) id (products w))
          (carts w) (orders w) (next_id w)).

(** [Order.findById(id)] *)
Definition Order_findById (id : ObjectId) : M (option Order) :=
  fun w => (inr (orders w !! id), w).

(** [order.save()] for the order document whose [_id] is [id]. *)
Definition Order_save (id : ObjectId) (o : Order) : M Order :=
  fun w => (inr o, mkDb (products w) (carts w) (<[id := o]> (orders w)) (next_id w)).

(** ** controllers/orderController.js *)

Section OrderController.

(** models/Order.js is not among the sources.  What its schema accepts
    when [Order.create] validates the document is a parameter; the
    defaults of a new order ([status], [isPaid], [isDelivered]) are taken
    from the specification's state machine. *)
Variable orderSchemaOk : OrderData -> bool.

(** Modelled from the spec: the Order schema's defaults, "Initial state:
    [pending]", not paid, not delivered. *)
Definition new_order (d : OrderData) : Order :=
  mkOrder d "pending" false None None false None.

(** [Order.create(d)]: the new document's [_id]. *)
Definition Order_create (d : OrderData) : M ObjectId :=
  fun w =>
    if orderSchemaOk d then
      let o := new_order d in
      (inr (next_id w), mkDb (products w) (carts w) (<[next_id w := o]> (orders w)) (N.succ (next_id w)))
    else (inl "ValidationError", w).

(** Lines 27-54: the [for] loop over [cart.items], with its two
    accumulators; [inl] is the early [return res.status(400)...]. *)
Fixpoint checkItems (its : list PopulatedItem) (orderItems : list OrderItem)
    (totalPrice : float) : response Order + (list OrderItem * float) :=
  match its with
  | [] => inr (orderItems, totalPrice)
  | item :: rest =>
      match p_product item with
      | None => inl (fail400 ("Product " +:+ "Unknown" +:+ " is no longer available"))
      | Some product =>
          if negb (isActive product) then
            inl (fail400 ("Product " +:+ name product +:+ " is no longer available"))
          else if stock product <? p_quantity item then
            inl (fail400 ("Not enough stock for " +:+ name product +:+
                          ". Available: " +:+ pretty (stock product)))
          else
            let itemTotal := (p_price item * Number_of_Z (p_quantity item))%float in
            checkItems rest
              (orderItems ++ [mkOrderItem (p_ref item) (name product) (p_quantity item)
                                          (p_price item) (first_or_empty (images product))])
              (totalPrice + itemTotal)%float
      end
  end.

(** Lines 56-59. *)
Definition taxPrice (totalPrice : float) : float := (totalPrice * 0.1)%float.
Definition shippingPrice (totalPrice : float) : float :=
  if Number_gt totalPrice 100 then 0%float else 10%float.
Definition finalTotal (totalPrice : float) : float :=
  (totalPrice + taxPrice totalPrice + shippingPrice totalPrice)%float.

(** Lines 73-79: the stock loop.  [item.product._id] throws on a line
    whose product is [null]. *)
Fixpoint updateStock (its : list PopulatedItem) : M unit :=
  match its with
  | [] => ret tt
  | item :: rest =>
      match p_product item with
      | None => throw "TypeError"
      | Some _ =>
          do _ <- Product_incStock (p_ref item) (- p_quantity item);
          updateStock rest
      end
  end.

(** [createOrder] from line 16 on: everything after the cart has been
    read.  [cart] is the populated cart as it was when it was read. *)
Definition createOrder_after_read (cart : option PopulatedCart) (user : ObjectId)
    (shippingAddress : ShippingAddress) (paymentMethod : string) : M (response Order) :=
  match cart with
  | None => ret (fail400 "Cart is empty")
  | Some cart =>
      if (length (pc_items cart) =? 0)%nat then ret (fail400 "Cart is empty")
      else
        match checkItems (pc_items cart) [] 0%float with
        | inl r => ret r
        | inr (orderItems, totalPrice) =>
            do order <- Order_create
                 (mkOrderData user orderItems shippingAddress paymentMethod
                    totalPrice (taxPrice totalPrice) (shippingPrice totalPrice)
                    (finalTotal totalPrice));
            do _ <- updateStock (pc_items cart);
            do _ <- Cart_save_items (pc_user cart) [];
            (* [.populate('user', ...)] and [.populate('orderItems.product', ...)]
               only decorate the response and are left out. *)
            do populatedOrder <- Order_findById order;
            ret (mkResponse 201 true (Some "Order created successfully") populatedOrder)
        end
  end.

(** [POST /api/orders] *)
Definition createOrder (user : ObjectId) (shippingAddress : ShippingAddress)
    (paymentMethod : string) : M (response Order) :=
  do cart <- Cart_findOne_populated user;
  createOrder_after_read cart user shippingAddress paymentMethod.

(** Two requests whose handlers are both started before either resumes:
    each [await Cart.findOne(...)] is answered from the same database, and
    the handlers then run on, one after the other, each with the cart it
    was given. *)
Definition createOrder_twice_interleaved (user1 user2 : ObjectId)
    (shippingAddress : ShippingAddress) (paymentMethod : string) (w : db)
  : outcome Order * outcome Order * db :=
  let cart1 := populate_cart (products w) user1 <$> carts w !! user1 in
  let cart2 := populate_cart (products w) user2 <$> carts w !! user2 in
  let '(r1, w1) := asyncHandler (createOrder_after_read cart1 user1 shippingAddress paymentMethod) w in
  let '(r2, w2) := asyncHandler (createOrder_after_read cart2 user2 shippingAddress paymentMethod) w1 in
  (r1, r2, w2).

(** [PUT /api/orders/:id/pay] *)
Definition updateOrderToPaid (id user : ObjectId) (role : string)
    (paymentResultBody : option string) (now : Z) : M (response Order) :=
  do found <- Order_findById id;
  match found with
  | None => ret (fail404 "Order not found")
  | Some order =>
      if isPaid order then ret (fail400 "Order is already paid")
      else if negb (bool_decide (od_user (order_data order) = user))
              && negb (bool_decide (role = "admin")) then
        ret (fail403 "Not authorized to update this order")
      else
        do updatedOrder <- Order_save id
             (mkOrder (order_data order) "processing" true (Some now)
                (match paymentResultBody with
                 | Some r => Some r
                 | None => paymentResult order
                 end)
                (isDelivered order) (deliveredAt order));
        ret (mkResponse 200 true (Some "Order updated to paid") (Some updatedOrder))
  end.

(** [PUT /api/orders/:id/deliver] *)
Definition updateOrderToDelivered (id : ObjectId) (now : Z) : M (response Order) :=
  do found <- Order_findById id;
  match found with
  | None => ret (fail404 "Order not found")
  | Some order =>
      if isDelivered order then ret (fail400 "Order is already delivered")
      else
        do updatedOrder <- Order_save id
             (mkOrder (order_data order) "delivered" (isPaid order)
                (paidAt order) (paymentResult order) true (Some now));
        ret (mkResponse 200 true (Some "Order updated to delivered") (Some updatedOrder))
  end.

Definition validStatuses : list string :=
  ["pending"; "processing"; "shipped"; "delivered"; "cancelled"].

(** [PUT /api/orders/:id/status] *)
Definition updateOrderStatus (id : ObjectId) (newStatus : string) (now : Z)
  : M (response Order) :=
  if negb (bool_decide (newStatus ∈ validStatuses)) then
    ret (fail400 "Invalid status. Valid statuses: pending, processing, shipped, delivered, cancelled")
  else
    do found <- Order_findById id;
    match found with
    | None => ret (fail404 "Order not found")
    | Some order =>
        do updatedOrder <- Order_save id
             (if bool_decide (newStatus = "delivered") then
                mkOrder (order_data order) newStatus (isPaid order)
                  (paidAt order) (paymentResult order) true (Some now)
              else
                mkOrder (order_data order) newStatus (isPaid order)
                  (paidAt order) (paymentResult order) (isDelivered order) (deliveredAt order));
        ret (mkResponse 200 true (Some "Order status updated successfully") (Some updatedOrder))
    end.

End OrderController.

(** ** controllers/cartController.js *)

(** The predicate of the [filter] in [getCart], lines 17-21. *)
Definition validItem (item : PopulatedItem) : bool :=
  match p_product item with
  | Some p => (0 <? stock p) && (p_quantity item <=? stock p)
  | None => false
  end.

(** [GET /api/cart].  The populated product carries [stock], which is
    all the filter reads of it. *)
Definition getCart (user : ObjectId) : M (response PopulatedCart) :=
  do found <- Cart_findOne_populated user;
  do cart <- match found with
             | Some c => ret c
             | None => do c <- Cart_create user;
                       ret (mkPopulatedCart (cart_id c) user [])
             end;
  let validItems := List.filter validItem (pc_items cart) in
  do cart <- (if negb (length validItems =? length (pc_items cart))%nat then
                do _ <- Cart_save_items user (map depopulate_item validItems);
                ret (mkPopulatedCart (pc_id cart) (pc_user cart) validItems)
              else ret cart);
  ret (mkResponse 200 true None (Some cart)).

(** *** What a request carries *)

(** A product id as a request carries it, in the body or in the URL: a
    string.  The handlers do two things with it: they hand it to
    Mongoose, which casts it to an ObjectId, and they compare it with
    [item.product.toString()], which is the 24 lower-case hexadecimal
    digits of a stored id.  For these two uses a string is one of three
    kinds. *)
Inductive RequestId :=
  | Hex (id : ObjectId)      (* the string [id.toString()] itself *)
  | Spelled (id : ObjectId)  (* another string that casts to [id], such as
                                its digits in upper case *)
  | Malformed.               (* a string that casts to no ObjectId *)

(** The ObjectId Mongoose casts the string to, if any. *)
Definition cast_id (r : RequestId) : option ObjectId :=
  match r with
  | Hex id => Some id
  | Spelled id => Some id
  | Malformed => None
  end.

(** [Product.findById(productId)], [productId] being the request's
    string: a string that does not cast makes the query throw. *)
Definition Product_findById_string (productId : RequestId) : M (option Product) :=
  match cast_id productId with
  | Some id => fun w => (inr (products w !! id), w)
  | None => throw "CastError"
  end.

(** The [quantity] of a JSON body as the handler gets it.  Joi's
    [number()] accepts a number and also a string that reads as one, and
    the [validate] middleware looks at the error only and drops the value
    Joi converted: the handler gets the body as the client sent it.  The
    bounds of the schema ([min(1)], [max(10)]) are not assumed: what is
    proved holds for every integer. *)
Inductive BodyQuantity :=
  | JNumber (z : Z)   (* a JSON number *)
  | JString (n : N).  (* a JSON string: the decimal digits of [n] *)

(** The number the value stands for, in a comparison with a number and
    when Mongoose casts it on save. *)
Definition to_number (q : BodyQuantity) : Z :=
  match q with
  | JNumber z => z
  | JString n => Z.of_N n
  end.

(** [`${quantity}`] *)
Definition quantity_text (q : BodyQuantity) : string :=
  match q with
  | JNumber z => pretty z
  | JString n => pretty n
  end.

(** The number that the digits of [a] followed by the digits of [n]
    stand for. *)
Definition append_digits (a : Z) (n : N) : Z :=
  let shift := 10 ^ Z.of_nat (String.length (pretty n)) in
  if 0 <=? a then a * shift + Z.of_N n else a * shift - Z.of_N n.

(** [a + quantity] for a stored quantity [a]: the sum when the body's
    value is a number; when it is a string JavaScript concatenates, and
    the result stands for the number whose digits are those of [a]
    followed by those of the string. *)
Definition plus_quantity (a : Z) (q : BodyQuantity) : Z :=
  match q with
  | JNumber z => a + z
  | JString n => append_digits a n
  end.

(** [item => item.product.toString() === productId]: a comparison of
    strings, which only the string [toString] gives can pass. *)
Definition is_product (productId : RequestId) (item : CartItem) : bool :=
  match productId with
  | Hex id => bool_decide (product item = id)
  | _ => false
  end.

(** [POST /api/cart/items] *)
Definition addToCart (user : ObjectId) (productId : RequestId) (qty : BodyQuantity)
  : M (response PopulatedCart) :=
  do found <- Product_findById_string productId;
  match found with
  | None => ret (fail404 "Product not found")
  | Some prod =>
      if negb (isActive prod) then ret (fail404 "Product not found")
      else if stock prod <? to_number qty then
        ret (fail400 ("Only " +:+ pretty (stock prod) +:+ " items available in stock"))
      else
        do found <- Cart_findOne user;
        do cart <- match found with
                   | Some c => ret c
                   | None => Cart_create user
                   end;
        match findIndex (is_product productId) (items cart) with
        | Some existingItemIndex =>
            match items cart !! existingItemIndex with
            | None => throw "TypeError"
            | Some existing =>
                let newQuantity := plus_quantity (quantity existing) qty in
                if stock prod <? newQuantity then
                  ret (fail400 ("Cannot add " +:+ quantity_text qty +:+
                                " more items. Only " +:+
                                pretty (stock prod - quantity existing) +:+ " more available"))
                else
                  do _ <- Cart_save_items user
                       (<[existingItemIndex :=
                            mkCartItem (product existing) newQuantity (price prod)]>
                          (items cart));
                  do populatedCart <- Cart_findOne_populated user;
                  ret (mkResponse 201 true (Some "Item added to cart successfully")
                         populatedCart)
            end
        | None =>
            match cast_id productId with
            | None => throw "CastError"
            | Some id =>
                do _ <- Cart_save_items user
                     (items cart ++ [mkCartItem id (to_number qty) (price prod)]);
                do populatedCart <- Cart_findOne_populated user;
                ret (mkResponse 201 true (Some "Item added to cart successfully")
                       populatedCart)
            end
        end
  end.

(** [PUT /api/cart/items/:productId] *)
Definition updateCartItem (user : ObjectId) (productId : RequestId) (qty : BodyQuantity)
  : M (response PopulatedCart) :=
  do found <- Cart_findOne user;
  match found with
  | None => ret (fail404 "Cart not found")
  | Some cart =>
      match findIndex (is_product productId) (items cart) with
      | None => ret (fail404 "Item not found in cart")
      | Some itemIndex =>
          do found <- Product_findById_string productId;
          match found with
          | None => ret (fail400 ("Only " +:+ pretty 0 +:+ " items available in stock"))
          | Some prod =>
              if stock prod <? to_number qty then
                ret (fail400 ("Only " +:+ pretty (stock prod) +:+ " items available in stock"))
              else
                match items cart !! itemIndex with
                | None => throw "TypeError"
                | Some existing =>
                    do _ <- Cart_save_items user
                         (<[itemIndex :=
                              mkCartItem (product existing) (to_number qty) (price prod)]>
                            (items cart));
                    do populatedCart <- Cart_findOne_populated user;
                    ret (mkResponse 200 true (Some "Cart item updated successfully")
                           populatedCart)
                end
          end
      end
  end.

(** ** controllers/productController.js *)

(** [convertImagesToUrls] *)
Definition convertImagesToUrls (p : Product) : Product :=
  mkProduct (name p) (price p) (stock p)
    (map (fun image => if String.prefix "http" image then image
                       else "/uploads/" +:+ image) (images p))
    (isActive p).

(** [PUT /api/products/:id] for a body that carries a [price], a [stock],
    both or neither, and no other field and no uploaded file: what is
    absent is left as it is.  [runValidators] applies the schema's
    [min: 0] to the two fields. *)
Definition updateProduct (id : ObjectId) (newPrice : option float) (newStock : option Z)
  : M (response Product) :=
  do found <- Product_findById id;
  match found with
  | None => ret (fail404 "Product not found")
  | Some p =>
      if from_option (PrimFloat.leb 0) true newPrice && from_option (Z.leb 0) true newStock then
        let p' := mkProduct (name p) (default (price p) newPrice)
                    (default (stock p) newStock) (images p) (isActive p) in
        do _ <- (fun w => (inr tt, mkDb (<[id := p']> (products w)) (carts w) (orders w)
                                     (next_id w)));
        ret (mkResponse 200 true (Some "Product updated successfully")
               (Some (convertImagesToUrls p')))
      else throw "ValidationError"
  end.

(** ** Concrete databases used by the examples *)

Definition anAddress : ShippingAddress :=
  mkShippingAddress "Ada" "1 Main St" "Paris" "75001" "FR".

Definition mug : Product := mkProduct "Mug" 50 5 ["mug.png"] true.
Definition lastMug : Product := mkProduct "Mug" 50 1 ["mug.png"] true.
Definition retiredMug : Product := mkProduct "Mug" 50 5 ["mug.png"] false.
Definition sticker : Product := mkProduct "Sticker" 0.05 9 [] true.

(** Product 1 is [p]; user 7 has cart 3 with the lines [its]. *)
Definition shop (p : Product) (its : list CartItem) : db :=
  mkDb {[ 1%N := p ]} {[ 7%N := mkCart 3%N its ]} ∅ 100%N.

(** Product 1 with one unit left, in the carts of users 7 and 8. *)
Definition shop_two_buyers : db :=
  mkDb {[ 1%N := lastMug ]}
       (<[ 7%N := mkCart 3%N [mkCartItem 1%N 1 50] ]>
          {[ 8%N := mkCart 4%N [mkCartItem 1%N 1 50] ]})
       ∅ 100%N.

Definition accept_all (d : OrderData) : bool := true.
Definition reject_all (d : OrderData) : bool := false.

(** ** Vocabulary of the statements *)

(** [price * quantity] of one cart line, in doubles. *)
Definition line_total (item : PopulatedItem) : float :=
  (p_price item * Number_of_Z (p_quantity item))%float.

(** The line totals added to [acc] one after the other, in the order of
    the lines: addition of doubles is not associative, so the order is
    part of the sum. *)
Definition sum_lines_from (acc : float) (its : list PopulatedItem) : float :=
  fold_left (fun acc item => (acc + line_total item)%float) its acc.

(** The sum over the lines, from [0]. *)
Definition sum_lines (its : list PopulatedItem) : float := sum_lines_from 0 its.

(** The same sum over the lines as stored, before [populate]. *)
Definition sum_cart (its : list CartItem) : float :=
  fold_left (fun acc item => (acc + item_price item * Number_of_Z (quantity item))%float)
    its 0%float.

(** A line the validation loop rejects: its product is missing, is
    inactive, or has less stock than the line asks for. *)
Definition offending (item : PopulatedItem) : Prop :=
  match p_product item with
  | None => True
  | Some p => isActive p = false \/ stock p < p_quantity item
  end.

Definition line_ok (item : PopulatedItem) : bool :=
  match p_product item with
  | None => false
  | Some p => isActive p && negb (stock p <? p_quantity item)
  end.

(** The message of the 400 response for a rejected line. *)
Definition offence_message (item : PopulatedItem) : string :=
  match p_product item with
  | None => "Product Unknown is no longer available"
  | Some p =>
      if negb (isActive p) then "Product " +:+ name p +:+ " is no longer available"
      else "Not enough stock for " +:+ name p +:+ ". Available: " +:+ pretty (stock p)
  end.

(** [nm] occurs in [msg]. *)
Definition mentions (msg nm : string) : Prop :=
  exists pre post, msg = pre +:+ nm +:+ post.

(** The order line the loop pushes for a cart line whose product is [p]. *)
Definition order_item_of (item : PopulatedItem) (p : Product) : OrderItem :=
  mkOrderItem (p_ref item) (name p) (p_quantity item) (p_price item)
    (first_or_empty (images p)).

(** What ties a cart line to the order line made from it. *)
Definition snapshot_of (item : PopulatedItem) (oi : OrderItem) : Prop :=
  exists p, p_product item = Some p /\ oi = order_item_of item p.

(** The products after the stock loop has run over [its]. *)
Definition apply_decrements (its : list PopulatedItem) (ps : gmap ObjectId Product)
  : gmap ObjectId Product :=
  fold_left
    (fun acc item => alter (fun p => set_stock (stock p + - p_quantity item) p) (p_ref item) acc)
    its ps.

(** The order document a checkout of subtotal [totalPrice] creates. *)
Definition order_of (user : ObjectId) (orderItems : list OrderItem)
    (shippingAddress : ShippingAddress) (paymentMethod : string) (totalPrice : float)
  : Order :=
  new_order (mkOrderData user orderItems shippingAddress paymentMethod totalPrice
               (taxPrice totalPrice) (shippingPrice totalPrice) (finalTotal totalPrice)).

(** A checkout that went through: the handler answered 201 with the
    order [o]. *)
Definition checkout_succeeded (out : outcome Order) (o : Order) : Prop :=
  exists r, out = Responded r /\ res_status r = 201 /\ data r = Some o.

Definition is_success {D} (out : outcome D) : bool :=
  match out with
  | Responded r => res_status r =? 201
  | Thrown _ => false
  end.


(** [0 <= x] on Numbers: [false] for a negative number and for [NaN]. *)
Definition nonneg (x : float) : bool := (0 <=? x)%float.







(** The lines of [user]'s cart as [createOrder] and [getCart] see them. *)
Definition lines_of (user : ObjectId) (w : db) : list PopulatedItem :=
  match carts w !! user with
  | Some c => map (populate_item (products w)) (items c)
  | None => []
  end.

(** The response is a 400 whose message carries the name of the product
    of the line [item]. *)
Definition names_product_of (out : outcome Order) (item : PopulatedItem) : Prop :=
  exists p msg, p_product item = Some p /\ out = Responded (fail400 msg) /\
                mentions msg (name p).

(** The database a handler leaves behind. *)
Definition after {D} (h : M (response D)) (w : db) : db := snd (asyncHandler h w).

(** One product, no cart, no order. *)
Definition shop_no_cart : db := mkDb {[ 1%N := mug ]} ∅ ∅ 100%N.

(** The scenario of a price edit followed by a quantity update. *)
Definition shop_added : db := after (addToCart 7%N (Hex 1%N) (JNumber 1)) shop_no_cart.
Definition shop_repriced : db := after (updateProduct 1%N (Some 80%float) None) shop_added.
Definition shop_requantified : db :=
  after (updateCartItem 7%N (Hex 1%N) (JNumber 2)) shop_repriced.

Definition someOrderData : OrderData :=
  mkOrderData 7%N [mkOrderItem 1%N "Mug" 1 50 "mug.png"] anAddress "paypal"
    50 5 10 65.
Definition deliveredOrder : Order :=
  mkOrder someOrderData "delivered" true (Some 1) None true (Some 2).
Definition cancelledOrder : Order :=
  mkOrder someOrderData "cancelled" false None None false None.
Definition pendingOrder : Order := new_order someOrderData.

(** Order 5 is [o]. *)
Definition order_book (o : Order) : db := mkDb ∅ ∅ {[ 5%N := o ]} 100%N.

(** The status of order [id] in [w]. *)
Definition status_of (id : ObjectId) (w : db) : option string :=
  status <$> orders w !! id.

(** The database a checkout that goes through leaves behind. *)
Definition db_after_checkout (user : ObjectId) (o : Order) (w : db) : db :=
  mkDb (apply_decrements (lines_of user w) (products w))
       (alter (set_items []) user (carts w))
       (<[next_id w := o]> (orders w))
       (N.succ (next_id w)).

(** ** More of controllers/cartController.js *)

(** [DELETE /api/cart/items/:productId] *)
Definition removeFromCart (user : ObjectId) (productId : RequestId)
  : M (response PopulatedCart) :=
  do found <- Cart_findOne user;
  match found with
  | None => ret (fail404 "Cart not found")
  | Some cart =>
      match findIndex (is_product productId) (items cart) with
      | None => ret (fail404 "Item not found in cart")
      | Some itemIndex =>
          (* [cart.items.splice(itemIndex, 1)] *)
          do _ <- Cart_save_items user (delete itemIndex (items cart));
          do populatedCart <- Cart_findOne_populated user;
          ret (mkResponse 200 true (Some "Item removed from cart successfully")
                 populatedCart)
      end
  end.

(** [DELETE /api/cart] *)
Definition clearCart (user : ObjectId) : M (response Cart) :=
  do found <- Cart_findOne user;
  match found with
  | None => ret (fail404 "Cart not found")
  | Some cart =>
      do _ <- Cart_save_items user [];
      ret (mkResponse 200 true (Some "Cart cleared successfully")
             (Some (set_items [] cart)))
  end.

(** ** Vocabulary of the further statements *)

(** No cart lists a product twice. *)
Definition carts_unique (w : db) : Prop :=
  forall user c, carts w !! user = Some c -> NoDup (map product (items c)).

(** The flags of an order agree with its timestamps and its status. *)
Definition order_consistent (o : Order) : Prop :=
  (isPaid o = true -> paidAt o <> None) /\
  (isDelivered o = true -> deliveredAt o <> None) /\
  (status o = "delivered" -> isDelivered o = true).

(** The line the handlers find for the request's [productId] in the cart
    of [user], if any. *)
Definition line_for (user : ObjectId) (productId : RequestId) (w : db) : option CartItem :=
  match carts w !! user with
  | Some c => List.find (is_product productId) (items c)
  | None => None
  end.

(** The lines of the cart of [user] as stored; none when there is no cart. *)
Definition stored_lines (user : ObjectId) (w : db) : list CartItem :=
  match carts w !! user with
  | Some c => items c
  | None => []
  end.

(** The handler answered with HTTP status [st]. *)
Definition is_status {D} (st : Z) (out : outcome D) : bool :=
  match out with
  | Responded r => res_status r =? st
  | Thrown _ => false
  end.

(** The database after [cart.items = its; cart.save()] for [user]'s cart. *)
Definition with_items (user : ObjectId) (its : list CartItem) (w : db) : db :=
  mkDb (products w) (alter (set_items its) user (carts w)) (orders w) (next_id w).

(** The database after [Cart.create({ user, items: [] })]. *)
Definition with_new_cart (user : ObjectId) (w : db) : db :=
  mkDb (products w) (<[user := mkCart (next_id w) []]> (carts w)) (orders w)
       (N.succ (next_id w)).

(** One step of order administration. *)
Inductive order_step : db -> db -> Prop :=
  | step_paid id user role pr now w :
      order_step w (after (updateOrderToPaid id user role pr now) w)
  | step_delivered id now w :
      order_step w (after (updateOrderToDelivered id now) w)
  | step_status id s now w :
      order_step w (after (updateOrderStatus id s now) w).

(** ** models/Product.js and models/Category.js: the slug *)

(** The pre-save hook of both schemas computes
    [name.toLowerCase().replace(/[^a-zA-Z0-9]/g, '-').replace(/-+/g, '-').replace(/^-|-$/g, '')].
    A name is read as a string of ASCII characters, which is where
    [toLowerCase] only maps [A-Z] to [a-z]. *)

Definition dash : ascii := "-"%char.

Definition is_upper (c : ascii) : bool :=
  ((65 <=? N_of_ascii c) && (N_of_ascii c <=? 90))%N.
Definition is_lower (c : ascii) : bool :=
  ((97 <=? N_of_ascii c) && (N_of_ascii c <=? 122))%N.
Definition is_digit (c : ascii) : bool :=
  ((48 <=? N_of_ascii c) && (N_of_ascii c <=? 57))%N.

(** [c.toLowerCase()] for one ASCII character. *)
Definition toLowerCase_char (c : ascii) : ascii :=
  if is_upper c then ascii_of_N (N_of_ascii c + 32) else c.

Fixpoint toLowerCase (s : string) : string :=
  match s with
  | EmptyString => EmptyString
  | String c rest => String (toLowerCase_char c) (toLowerCase rest)
  end.

(** [.replace(/[^a-zA-Z0-9]/g, '-')] *)
Fixpoint replace_non_alnum (s : string) : string :=
  match s with
  | EmptyString => EmptyString
  | String c rest =>
      String (if is_lower c || is_upper c || is_digit c then c else dash)
             (replace_non_alnum rest)
  end.

(** [.replace(/-+/g, '-')]: every run of dashes becomes one dash. *)
Fixpoint collapse_dashes (s : string) : string :=
  match s with
  | EmptyString => EmptyString
  | String c rest =>
      if Ascii.eqb c dash then
        match rest with
        | String c' _ =>
            if Ascii.eqb c' dash then collapse_dashes rest
            else String dash (collapse_dashes rest)
        | EmptyString => String dash EmptyString
        end
      else String c (collapse_dashes rest)
  end.

(** [.replace(/^-|-$/g, '')]: a dash at the very start goes, and a dash at
    the very end of what is left goes. *)
Definition strip_leading_dash (s : string) : string :=
  match s with
  | String c rest => if Ascii.eqb c dash then rest else s
  | EmptyString => EmptyString
  end.

Fixpoint strip_trailing_dash (s : string) : string :=
  match s with
  | EmptyString => EmptyString
  | String c EmptyString => if Ascii.eqb c dash then EmptyString else s
  | String c rest => String c (strip_trailing_dash rest)
  end.

Definition slugify (name : string) : string :=
  strip_trailing_dash
    (strip_leading_dash (collapse_dashes (replace_non_alnum (toLowerCase name)))).

(** Every character of [s] passes [f]. *)
Fixpoint string_forall (f : ascii -> bool) (s : string) : bool :=
  match s with
  | EmptyString => true
  | String c rest => f c && string_forall f rest
  end.

Definition is_ascii (c : ascii) : bool := (N_of_ascii c <? 128)%N.
Definition is_alnum (c : ascii) : bool := is_lower c || is_upper c || is_digit c.
Definition is_slug_char (c : ascii) : bool := is_lower c || is_digit c || Ascii.eqb c dash.

Definition starts_with_dash (s : string) : bool :=
  match s with
  | String c _ => Ascii.eqb c dash
  | EmptyString => false
  end.

Fixpoint ends_with_dash (s : string) : bool :=
  match s with
  | EmptyString => false
  | String c EmptyString => Ascii.eqb c dash
  | String _ rest => ends_with_dash rest
  end.

(** Two dashes in a row somewhere in [s]. *)
Fixpoint has_double_dash (s : string) : bool :=
  match s with
  | EmptyString => false
  | String c rest => (Ascii.eqb c dash && starts_with_dash rest) || has_double_dash rest
  end.

(** The characters of [s] that pass [f], in order. *)
Fixpoint string_filter (f : ascii -> bool) (s : string) : string :=
  match s with
  | EmptyString => EmptyString
  | String c rest => if f c then String c (string_filter f rest) else string_filter f rest
  end.

(** ** Lemmas on the validation loop *)

Lemma offending_line_ok item : offending item <-> line_ok item = false.
Proof.
  unfold offending, line_ok. destruct (p_product item) as [p|]; [|tauto].
  destruct (isActive p); simpl.
  - rewrite negb_false_iff, Z.ltb_lt. split; [intros [?|?]; [discriminate|done]|tauto].
  - tauto.
Qed.

Lemma checkItems_inr its : forall acc total ois total',
  checkItems its acc total = inr (ois, total') ->
  Forall (fun item => line_ok item = true) its /\
  total' = sum_lines_from total its /\
  exists new, ois = acc ++ new /\ Forall2 snapshot_of its new.
Proof.
  induction its as [|item rest IH]; intros acc total ois total' H; simpl in H.
  - inversion H; subst. split; [constructor|]. split; [done|].
    exists []. split; [by rewrite app_nil_r | constructor].
  - destruct (p_product item) as [p|] eqn:Hp; [|discriminate].
    destruct (isActive p) eqn:Ha; simpl in H; [|discriminate].
    destruct (stock p <? p_quantity item) eqn:Hs; [discriminate|].
    apply IH in H as (Hall & Hsum & new & -> & Hnew).
    split; [constructor; [|done]|].
    { unfold line_ok. by rewrite Hp, Ha, Hs. }
    split; [done|].
    exists (order_item_of item p :: new). split.
    + by rewrite <- app_assoc.
    + constructor; [|done]. by exists p.
Qed.

Lemma checkItems_find its : forall acc total,
  match List.find (fun item => negb (line_ok item)) its with
  | Some item => checkItems its acc total = inl (fail400 (offence_message item))
  | None => exists ois total', checkItems its acc total = inr (ois, total')
  end.
Proof.
  induction its as [|item rest IH]; intros acc total; simpl.
  - eauto.
  - unfold line_ok at 1.
    destruct (p_product item) as [p|] eqn:Hp; simpl.
    2: { unfold offence_message. by rewrite Hp. }
    destruct (isActive p) eqn:Ha; simpl.
    2: { unfold offence_message. by rewrite Hp, Ha. }
    destruct (stock p <? p_quantity item) eqn:Hs; simpl.
    { unfold offence_message. by rewrite Hp, Ha. }
    apply IH.
Qed.

Lemma find_offending its :
  Exists offending its ->
  exists item, List.find (fun item => negb (line_ok item)) its = Some item /\
               item ∈ its /\ offending item.
Proof.
  induction 1 as [item rest H|item rest H IH]; simpl.
  - apply offending_line_ok in H as H'. rewrite H'. simpl.
    exists item. split; [done|]. split; [left|done].
  - destruct (line_ok item) eqn:Hok; simpl.
    + destruct IH as (it & ? & ? & ?). exists it. split; [done|]. split; [by right|done].
    + exists item. split; [done|]. split; [left|]. by apply offending_line_ok.
Qed.

(** ** What a checkout does, case by case *)

Lemma updateStock_run its : forall w,
  Forall (fun item => line_ok item = true) its ->
  updateStock its w =
    (inr tt, mkDb (apply_decrements its (products w)) (carts w) (orders w) (next_id w)).
Proof.
  induction its as [|item rest IH]; intros w Hall; simpl.
  - by destruct w.
  - inversion Hall as [|? ? Hok Hrest]; subst.
    unfold line_ok in Hok. destruct (p_product item) as [p|]; [|discriminate].
    unfold bind, Product_incStock. rewrite IH by done. reflexivity.
Qed.

Lemma createOrder_after_read_run ok cid user sa pm L w :
  L <> [] ->
  createOrder_after_read ok (Some (mkPopulatedCart cid user L)) user sa pm w =
    match checkItems L [] 0%float with
    | inl r => (inr r, w)
    | inr (ois, total) =>
        if ok (order_data (order_of user ois sa pm total)) then
          (inr (mkResponse 201 true (Some "Order created successfully")
                  (Some (order_of user ois sa pm total))),
           mkDb (apply_decrements L (products w))
                (alter (set_items []) user (carts w))
                (<[next_id w := order_of user ois sa pm total]> (orders w))
                (N.succ (next_id w)))
        else (inl "ValidationError", w)
    end.
Proof.
  intros HL. unfold createOrder_after_read. cbn [pc_items pc_user].
  destruct (length L =? 0)%nat eqn:Hlen.
  { apply Nat.eqb_eq in Hlen. by destruct L. }
  destruct (checkItems L [] 0%float) as [r|[ois total]] eqn:Hchk; [done|].
  apply checkItems_inr in Hchk as (Hall & _ & _).
  unfold bind at 1. unfold Order_create, order_of. cbn [order_data new_order].
  destruct (ok _) eqn:Hok; [|done].
  unfold bind. rewrite updateStock_run by done.
  unfold Cart_save_items, Order_findById, ret. cbn [products carts orders next_id].
  by rewrite lookup_insert_eq.
Qed.

Lemma createOrder_run ok user sa pm w :
  asyncHandler (createOrder ok user sa pm) w =
    match carts w !! user with
    | None => (Responded (fail400 "Cart is empty"), w)
    | Some c =>
        match items c with
        | [] => (Responded (fail400 "Cart is empty"), w)
        | _ :: _ =>
            match checkItems (lines_of user w) [] 0%float with
            | inl r => (Responded r, w)
            | inr (ois, total) =>
                if ok (order_data (order_of user ois sa pm total)) then
                  (Responded (mkResponse 201 true (Some "Order created successfully")
                                (Some (order_of user ois sa pm total))),
                   db_after_checkout user (order_of user ois sa pm total) w)
                else (Thrown "ValidationError", w)
            end
        end
    end.
Proof.
  unfold asyncHandler, createOrder, db_after_checkout, lines_of.
  unfold bind at 1. unfold Cart_findOne_populated.
  destruct (carts w !! user) as [[cid its]|] eqn:Hc; cbn [fmap option_fmap option_map items];
    [|done].
  destruct its as [|i0 rest]; [done|].
  unfold populate_cart. cbn [cart_id items].
  rewrite createOrder_after_read_run by done.
  destruct (checkItems _ _ _) as [r|[ois total]]; [done|].
  by destruct (ok _).
Qed.

Lemma checkItems_inl its acc total r :
  checkItems its acc total = inl r -> exists item, item ∈ its /\ r = fail400 (offence_message item).
Proof.
  intros H. pose proof (checkItems_find its acc total) as Hf.
  destruct (List.find _ its) as [item|] eqn:Hfind.
  - exists item. split.
    + apply list_elem_of_In. by apply find_some in Hfind as [? _].
    + congruence.
  - destruct Hf as (ois & total' & Hf). congruence.
Qed.

Lemma sum_lines_populate ps its :
  sum_lines (map (populate_item ps) its) = sum_cart its.
Proof.
  unfold sum_lines, sum_lines_from, sum_cart. generalize 0%float.
  induction its as [|it rest IH]; intros acc; simpl; [done|]. apply IH.
Qed.


(** A checkout that answers 201 went through every step. *)
Lemma createOrder_success_inv ok user sa pm w out w' o :
  asyncHandler (createOrder ok user sa pm) w = (out, w') ->
  checkout_succeeded out o ->
  exists c ois total,
    carts w !! user = Some c /\ items c <> [] /\
    checkItems (lines_of user w) [] 0%float = inr (ois, total) /\
    ok (order_data o) = true /\
    o = order_of user ois sa pm total /\
    w' = db_after_checkout user o w.
Proof.
  rewrite createOrder_run. intros Hrun (r & -> & Hst & Hdata).
  destruct (carts w !! user) as [c|] eqn:Hc.
  2: { inversion Hrun; subst. discriminate. }
  destruct (items c) as [|i0 rest] eqn:Hi.
  { inversion Hrun; subst. discriminate. }
  destruct (checkItems _ _ _) as [r'|[ois total]] eqn:Hchk.
  { apply checkItems_inl in Hchk as (item & _ & ->). inversion Hrun; subst. discriminate. }
  destruct (ok _) eqn:Hok; [|discriminate].
  inversion Hrun; subst. simpl in Hdata. inversion Hdata; subst.
  exists c, ois, total. rewrite Hi. done.
Qed.

(** ** The checkout pipeline *)

(** C6: a checkout for a user who has no cart, or whose cart has no line,
    answers 400 "Cart is empty" and leaves the database, orders included,
    exactly as it was. *)
Theorem createOrder_empty_cart ok user sa pm w :
  (carts w !! user = None \/ exists c, carts w !! user = Some c /\ items c = []) ->
  asyncHandler (createOrder ok user sa pm) w = (Responded (fail400 "Cart is empty"), w).
Proof.
  rewrite createOrder_run. intros [-> | (c & -> & ->)]; reflexivity.
Qed.

Lemma createOrder_empty_cart_witness :
  asyncHandler (createOrder accept_all 7%N anAddress "paypal") (shop mug []) =
    (Responded (fail400 "Cart is empty"), shop mug []) /\
  asyncHandler (createOrder accept_all 9%N anAddress "paypal") (shop mug []) =
    (Responded (fail400 "Cart is empty"), shop mug []).
Proof.
  split.
  - apply createOrder_empty_cart. right. exists (mkCart 3%N []). split; reflexivity.
  - apply createOrder_empty_cart. left. reflexivity.
Defined.

(** C7: when a checkout answers 201, the user's cart is still there with
    the same [_id] under the same user and with no line, and every other
    cart is untouched; when it ends in any other way (empty cart, rejected
    line, [Order.create] refusing the document) the database is left as it
    was, so the cart has not been cleared. *)
Theorem createOrder_clears_cart_only_on_success ok user sa pm w out w' :
  asyncHandler (createOrder ok user sa pm) w = (out, w') ->
  if is_success out then
    exists c, carts w !! user = Some c /\
              carts w' !! user = Some (mkCart (cart_id c) []) /\
              forall u, u <> user -> carts w' !! u = carts w !! u
  else w' = w.
Proof.
  intros Hrun. destruct (is_success out) eqn:Hs.
  - destruct out as [r|e]; [|discriminate]. simpl in Hs. apply Z.eqb_eq in Hs.
    assert (exists o, checkout_succeeded (Responded r) o) as [o Ho].
    { rewrite createOrder_run in Hrun.
      destruct (carts w !! user) as [c|]; [|inversion Hrun; subst; discriminate].
      destruct (items c); [inversion Hrun; subst; discriminate|].
      destruct (checkItems _ _ _) as [r'|[ois total]] eqn:Hchk.
      { apply checkItems_inl in Hchk as (? & _ & ->). inversion Hrun; subst. discriminate. }
      destruct (ok _); [|discriminate]. inversion Hrun; subst.
      eexists. eexists. split; [done|]. split; [done|]. reflexivity. }
    destruct (createOrder_success_inv _ _ _ _ _ _ _ _ Hrun Ho)
      as (c & ois & total & Hc & _ & _ & _ & _ & ->).
    exists c. split; [done|]. unfold db_after_checkout. cbn [carts]. split.
    + rewrite lookup_alter_eq, Hc. reflexivity.
    + intros u Hu. by rewrite lookup_alter_ne.
  - rewrite createOrder_run in Hrun.
    destruct (carts w !! user) as [c|]; [|by inversion Hrun].
    destruct (items c); [by inversion Hrun|].
    destruct (checkItems _ _ _) as [r'|[ois total]]; [by inversion Hrun|].
    destruct (ok _); [|by inversion Hrun].
    inversion Hrun; subst. discriminate.
Qed.

Lemma createOrder_clears_cart_only_on_success_witness :
  (exists c, carts (shop mug [mkCartItem 1%N 2 50]) !! 7%N = Some c /\
     carts (snd (asyncHandler (createOrder accept_all 7%N anAddress "paypal")
                   (shop mug [mkCartItem 1%N 2 50]))) !! 7%N = Some (mkCart (cart_id c) []) /\
     forall u, u <> 7%N ->
       carts (snd (asyncHandler (createOrder accept_all 7%N anAddress "paypal")
                     (shop mug [mkCartItem 1%N 2 50]))) !! u =
       carts (shop mug [mkCartItem 1%N 2 50]) !! u) /\
  snd (asyncHandler (createOrder reject_all 7%N anAddress "paypal")
         (shop mug [mkCartItem 1%N 2 50])) = shop mug [mkCartItem 1%N 2 50].
Proof.
  split.
  - exact (createOrder_clears_cart_only_on_success accept_all 7%N anAddress "paypal"
             (shop mug [mkCartItem 1%N 2 50]) _ _ (surjective_pairing _)).
  - exact (createOrder_clears_cart_only_on_success reject_all 7%N anAddress "paypal"
             (shop mug [mkCartItem 1%N 2 50]) _ _ (surjective_pairing _)).
Defined.

(** *** Doubles: comparison and sign *)



























(** What the double arithmetic does to decimal prices.  Three at 21.35
    and one at 35.95 are 100.00 on paper; the loop adds them up to
    100.00000000000001, which is above 100: shipping is free.  One at 0.05
    and one at 99.95 add up to the double 100, not above: shipping is 10.
    Three at 0.1 give a subtotal of 0.30000000000000004 and a tax of
    0.030000000000000006; one at 100.01 gives a tax of 10.001000000000001
    and a total of 110.01100000000001. *)
Example createOrder_prices_are_doubles :
  (exists o,
     orders (after (createOrder accept_all 7%N anAddress "paypal")
               (mkDb (<[2%N := sticker]> {[ 1%N := mug ]})
                     {[ 7%N := mkCart 3%N [mkCartItem 1%N 3 21.35; mkCartItem 2%N 1 35.95] ]}
                     ∅ 100%N)) !! 100%N = Some o /\
     od_itemsPrice (order_data o) = 100.00000000000001%float /\
     od_shippingPrice (order_data o) = 0%float) /\
  (exists o,
     orders (after (createOrder accept_all 7%N anAddress "paypal")
               (mkDb (<[2%N := sticker]> {[ 1%N := mug ]})
                     {[ 7%N := mkCart 3%N [mkCartItem 1%N 1 0.05; mkCartItem 2%N 1 99.95] ]}
                     ∅ 100%N)) !! 100%N = Some o /\
     od_itemsPrice (order_data o) = 100%float /\
     od_shippingPrice (order_data o) = 10%float) /\
  (exists o,
     orders (after (createOrder accept_all 7%N anAddress "paypal")
               (shop mug [mkCartItem 1%N 3 0.1])) !! 100%N = Some o /\
     od_itemsPrice (order_data o) = 0.30000000000000004%float /\
     od_taxPrice (order_data o) = 0.030000000000000006%float) /\
  (exists o,
     orders (after (createOrder accept_all 7%N anAddress "paypal")
               (shop mug [mkCartItem 1%N 1 100.01])) !! 100%N = Some o /\
     od_itemsPrice (order_data o) = 100.01%float /\
     od_taxPrice (order_data o) = 10.001000000000001%float /\
     od_totalPrice (order_data o) = 110.01100000000001%float).
Proof.
  repeat split; eexists; (split; [vm_compute; reflexivity|]); by vm_compute.
Qed.

(** ** Rejected lines *)

Lemma offence_message_mentions item p :
  p_product item = Some p -> mentions (offence_message item) (name p).
Proof.
  intros Hp. unfold offence_message, mentions. rewrite Hp.
  destruct (negb (isActive p)).
  - by exists "Product ", " is no longer available".
  - by exists "Not enough stock for ", (". Available: " +:+ pretty (stock p)).
Qed.

(** C2, as the code has it: when some line of the cart has a missing or
    inactive product, or asks for more than the stock, the checkout answers
    400 for one such line and leaves the database as it was (no order, no
    stock change, cart untouched).  The message carries the product's name
    when the product document exists; for a missing product it reads
    "Product Unknown is no longer available". *)
Theorem createOrder_rejects_offending_line ok user sa pm w :
  Exists offending (lines_of user w) ->
  exists item,
    item ∈ lines_of user w /\ offending item /\
    asyncHandler (createOrder ok user sa pm) w =
      (Responded (fail400 (offence_message item)), w) /\
    (forall p, p_product item = Some p -> mentions (offence_message item) (name p)) /\
    (p_product item = None ->
     offence_message item = "Product Unknown is no longer available").
Proof.
  intros Hex. destruct (find_offending _ Hex) as (item & Hfind & Hin & Hoff).
  exists item. split; [done|]. split; [done|]. split.
  - rewrite createOrder_run. unfold lines_of in *.
    destruct (carts w !! user) as [c|]; [|by inversion Hex].
    destruct (items c) as [|i0 rest] eqn:Hi; [by inversion Hex|].
    pose proof (checkItems_find (map (populate_item (products w)) (i0 :: rest)) [] 0%float) as Hc.
    rewrite Hfind in Hc. by rewrite Hc.
  - split; [apply offence_message_mentions|].
    intros Hp. unfold offence_message. by rewrite Hp.
Qed.

Lemma createOrder_rejects_offending_line_witness :
  exists item,
    item ∈ lines_of 7%N (shop mug [mkCartItem 1%N 6 50]) /\ offending item /\
    asyncHandler (createOrder accept_all 7%N anAddress "paypal")
      (shop mug [mkCartItem 1%N 6 50]) =
      (Responded (fail400 (offence_message item)), shop mug [mkCartItem 1%N 6 50]) /\
    (forall p, p_product item = Some p -> mentions (offence_message item) (name p)) /\
    (p_product item = None ->
     offence_message item = "Product Unknown is no longer available").
Proof.
  apply createOrder_rejects_offending_line.
  apply Exists_cons_hd. right. reflexivity.
Defined.

(** C2 as worded fails for a line whose product is gone: the cart's only
    line is offending, the checkout is refused, and the response names no
    product of any line of the cart. *)
Lemma createOrder_missing_product_not_named :
  lines_of 7%N (shop mug [mkCartItem 2%N 1 50]) = [mkPopulatedItem None 2%N 1 50] /\
  offending (mkPopulatedItem None 2%N 1 50) /\
  asyncHandler (createOrder accept_all 7%N anAddress "paypal")
    (shop mug [mkCartItem 2%N 1 50]) =
    (Responded (fail400 "Product Unknown is no longer available"),
     shop mug [mkCartItem 2%N 1 50]) /\
  ~ exists item,
      item ∈ lines_of 7%N (shop mug [mkCartItem 2%N 1 50]) /\
      names_product_of
        (fst (asyncHandler (createOrder accept_all 7%N anAddress "paypal")
                (shop mug [mkCartItem 2%N 1 50]))) item.
Proof.
  split; [reflexivity|]. split; [exact I|]. split; [reflexivity|].
  intros (item & Hin & p & msg & Hp & _).
  change (lines_of 7%N (shop mug [mkCartItem 2%N 1 50]))
    with [mkPopulatedItem None 2%N 1 50] in Hin.
  apply list_elem_of_singleton in Hin. subst item. discriminate.
Qed.

Example createOrder_rejection_messages :
  fst (asyncHandler (createOrder accept_all 7%N anAddress "paypal")
         (shop retiredMug [mkCartItem 1%N 1 50])) =
    Responded (fail400 "Product Mug is no longer available") /\
  fst (asyncHandler (createOrder accept_all 7%N anAddress "paypal")
         (shop mug [mkCartItem 1%N 6 50])) =
    Responded (fail400 "Not enough stock for Mug. Available: 5") /\
  fst (asyncHandler (createOrder accept_all 7%N anAddress "paypal")
         (shop mug [mkCartItem 1%N 2 50; mkCartItem 2%N 1 50])) =
    Responded (fail400 "Product Unknown is no longer available") /\
  after (createOrder accept_all 7%N anAddress "paypal")
    (shop mug [mkCartItem 1%N 2 50; mkCartItem 2%N 1 50]) =
    shop mug [mkCartItem 1%N 2 50; mkCartItem 2%N 1 50].
Proof. repeat split; reflexivity. Qed.

(** ** Stock *)

(** The decrement of the stock loop goes through whatever the stored
    stock is. *)
Lemma Product_incStock_unconditional id delta w p :
  products w !! id = Some p ->
  Product_incStock id delta w =
    (inr tt, mkDb (<[id := set_stock (stock p + delta) p]> (products w))
                  (carts w) (orders w) (next_id w)).
Proof.
  intros Hp. unfold Product_incStock. do 2 f_equal.
  apply map_eq. intros j. destruct (decide (id = j)) as [->|Hne].
  - by rewrite lookup_alter_eq, lookup_insert_eq, Hp.
  - by rewrite lookup_alter_ne, lookup_insert_ne.
Qed.

(** C1, where the code departs from it: two checkouts for the last unit
    of a product, started together, both answer 201 and leave the stock
    at -1; so does one checkout of a cart that lists the product twice.
    The decrement is applied whatever the stored stock is. *)
Theorem createOrder_oversells :
  is_success (fst (fst (createOrder_twice_interleaved accept_all 7%N 8%N anAddress "paypal"
                          shop_two_buyers))) = true /\
  is_success (snd (fst (createOrder_twice_interleaved accept_all 7%N 8%N anAddress "paypal"
                          shop_two_buyers))) = true /\
  stock <$> products shop_two_buyers !! 1%N = Some 1 /\
  stock <$> products (snd (createOrder_twice_interleaved accept_all 7%N 8%N anAddress
                             "paypal" shop_two_buyers)) !! 1%N = Some (-1) /\
  is_success (fst (asyncHandler (createOrder accept_all 7%N anAddress "paypal")
                     (shop lastMug [mkCartItem 1%N 1 50; mkCartItem 1%N 1 50]))) = true /\
  stock <$> products (after (createOrder accept_all 7%N anAddress "paypal")
                        (shop lastMug [mkCartItem 1%N 1 50; mkCartItem 1%N 1 50])) !! 1%N
    = Some (-1) /\
  stock <$> products (snd (Product_incStock 1%N (-2) (shop lastMug []))) !! 1%N = Some (-1).
Proof. repeat split; vm_compute; reflexivity. Qed.

Lemma apply_decrements_other its : forall ps id,
  id ∉ map p_ref its -> apply_decrements its ps !! id = ps !! id.
Proof.
  induction its as [|item rest IH]; intros ps id Hid; simpl; [done|].
  simpl in Hid. apply not_elem_of_cons in Hid as [Hne Hid].
  unfold apply_decrements in *. simpl. rewrite IH by done.
  by rewrite lookup_alter_ne.
Qed.

Lemma apply_decrements_line its : forall ps item,
  NoDup (map p_ref its) -> item ∈ its ->
  apply_decrements its ps !! p_ref item =
    (fun p => set_stock (stock p + - p_quantity item) p) <$> ps !! p_ref item.
Proof.
  induction its as [|x rest IH]; intros ps item Hnd Hin; [by apply elem_of_nil in Hin|].
  simpl in Hnd. apply NoDup_cons in Hnd as [Hx Hnd].
  apply elem_of_cons in Hin as [-> | Hin].
  - change (apply_decrements (x :: rest) ps) with
      (apply_decrements rest
         (alter (fun p => set_stock (stock p + - p_quantity x) p) (p_ref x) ps)).
    rewrite apply_decrements_other by done. by rewrite lookup_alter_eq.
  - change (apply_decrements (x :: rest) ps) with
      (apply_decrements rest
         (alter (fun p => set_stock (stock p + - p_quantity x) p) (p_ref x) ps)).
    rewrite IH by done. rewrite lookup_alter_ne; [done|].
    intros Heq. apply Hx. rewrite Heq. apply list_elem_of_fmap. by exists item.
Qed.

(** X1: What does hold of the stock: a successful checkout of a cart whose
    lines name pairwise different products, run on its own, takes exactly
    the line's quantity off each purchased product, leaves that stock at 0
    or more, and leaves every other product alone. *)
Theorem createOrder_decrements_stock ok user sa pm w out w' o c :
  asyncHandler (createOrder ok user sa pm) w = (out, w') ->
  checkout_succeeded out o ->
  carts w !! user = Some c ->
  NoDup (map product (items c)) ->
  (forall line, line ∈ items c ->
     exists p, products w !! product line = Some p /\
               products w' !! product line = Some (set_stock (stock p - quantity line) p) /\
               0 <= stock p - quantity line) /\
  (forall id, id ∉ map product (items c) -> products w' !! id = products w !! id).
Proof.
  intros Hrun Hok Hc Hnd.
  destruct (createOrder_success_inv _ _ _ _ _ _ _ _ Hrun Hok)
    as (c' & ois & total & Hc' & _ & Hchk & _ & _ & ->).
  rewrite Hc in Hc'. inversion Hc'; subst c'. clear Hc'.
  apply checkItems_inr in Hchk as (Hall & _ & _).
  unfold db_after_checkout, lines_of in *. rewrite Hc in *. cbn [products].
  assert (map p_ref (map (populate_item (products w)) (items c)) = map product (items c))
    as Hrefs.
  { rewrite map_map. reflexivity. }
  split.
  - intros line Hin.
    assert (populate_item (products w) line ∈ map (populate_item (products w)) (items c))
      as Hin' by (apply list_elem_of_fmap; by exists line).
    rewrite Forall_forall in Hall.
    assert (line_ok (populate_item (products w) line) = true) as Hline.
    { by apply Hall. }
    unfold line_ok in Hline. cbn [populate_item p_product p_quantity] in Hline.
    destruct (products w !! product line) as [p|] eqn:Hp; [|discriminate].
    apply andb_true_iff in Hline as [_ Hstock].
    apply negb_true_iff, Z.ltb_ge in Hstock.
    exists p. split; [done|]. split; [|lia].
    pose proof (apply_decrements_line _ (products w) _ ltac:(by rewrite Hrefs) Hin') as Hdec.
    cbn [populate_item p_ref p_quantity] in Hdec. rewrite Hdec, Hp. simpl.
    by rewrite <- Z.add_opp_r.
  - intros id Hid. apply apply_decrements_other. by rewrite Hrefs.
Qed.

Lemma createOrder_decrements_stock_witness :
  (forall line, line ∈ [mkCartItem 1%N 2 50] ->
     exists p, products (shop mug [mkCartItem 1%N 2 50]) !! product line = Some p /\
               products (after (createOrder accept_all 7%N anAddress "paypal")
                           (shop mug [mkCartItem 1%N 2 50])) !! product line
                 = Some (set_stock (stock p - quantity line) p) /\
               0 <= stock p - quantity line) /\
  (forall id, id ∉ map product [mkCartItem 1%N 2 50] ->
     products (after (createOrder accept_all 7%N anAddress "paypal")
                 (shop mug [mkCartItem 1%N 2 50])) !! id
       = products (shop mug [mkCartItem 1%N 2 50]) !! id).
Proof.
  refine (createOrder_decrements_stock accept_all 7%N anAddress "paypal"
            (shop mug [mkCartItem 1%N 2 50]) _ _
            (order_of 7%N [mkOrderItem 1%N "Mug" 2 50 "mug.png"] anAddress "paypal"
               100)
            (mkCart 3%N [mkCartItem 1%N 2 50]) (surjective_pairing _) _ eq_refl _).
  - eexists. split; [reflexivity|]. split; reflexivity.
  - apply NoDup_cons. split; [apply not_elem_of_nil | apply NoDup_nil_2].
Defined.

(** ** Order status *)

(** C8, as the code has it: no status handler looks at the current
    status.  [updateOrderStatus] stores whichever valid status it is
    given, [updateOrderToPaid] stores "processing" for an order not yet
    paid when the caller owns it or is an admin, [updateOrderToDelivered]
    stores "delivered" for an order whose [isDelivered] is false; this
    holds from every current status, "delivered" and "cancelled"
    included.  What is refused, leaving the database as it was: a status
    outside the valid five, paying a paid order, delivering an order whose
    [isDelivered] is true. *)
Theorem status_updates_ignore_current_status :
  (forall id s now w o,
     orders w !! id = Some o -> s ∈ validStatuses ->
     status_of id (after (updateOrderStatus id s now) w) = Some s) /\
  (forall id user role pr now w o,
     orders w !! id = Some o -> isPaid o = false ->
     od_user (order_data o) = user \/ role = "admin" ->
     status_of id (after (updateOrderToPaid id user role pr now) w) = Some "processing") /\
  (forall id now w o,
     orders w !! id = Some o -> isDelivered o = false ->
     status_of id (after (updateOrderToDelivered id now) w) = Some "delivered") /\
  (forall id s now w,
     s ∉ validStatuses -> after (updateOrderStatus id s now) w = w) /\
  (forall id user role pr now w o,
     orders w !! id = Some o -> isPaid o = true ->
     after (updateOrderToPaid id user role pr now) w = w) /\
  (forall id now w o,
     orders w !! id = Some o -> isDelivered o = true ->
     after (updateOrderToDelivered id now) w = w).
Proof.
  repeat split.
  - intros id s now w o Ho Hs.
    unfold status_of, after, asyncHandler, updateOrderStatus.
    rewrite bool_decide_eq_true_2 by done. cbn [negb].
    unfold bind, Order_findById, Order_save, ret. rewrite Ho. cbn.
    rewrite lookup_insert_eq. by case_bool_decide.
  - intros id user role pr now w o Ho Hp Hauth.
    unfold status_of, after, asyncHandler, updateOrderToPaid.
    unfold bind, Order_findById, Order_save, ret. rewrite Ho, Hp.
    assert (negb (bool_decide (od_user (order_data o) = user))
            && negb (bool_decide (role = "admin")) = false) as ->.
    { destruct Hauth as [H|H].
      - by rewrite (bool_decide_eq_true_2 _ H).
      - rewrite (bool_decide_eq_true_2 _ H). apply andb_false_r. }
    cbn. by rewrite lookup_insert_eq.
  - intros id now w o Ho Hd.
    unfold status_of, after, asyncHandler, updateOrderToDelivered.
    unfold bind, Order_findById, Order_save, ret. rewrite Ho, Hd. cbn.
    by rewrite lookup_insert_eq.
  - intros id s now w Hs.
    unfold after, asyncHandler, updateOrderStatus.
    by rewrite bool_decide_eq_false_2.
  - intros id user role pr now w o Ho Hp.
    unfold after, asyncHandler, updateOrderToPaid.
    unfold bind, Order_findById, ret. by rewrite Ho, Hp.
  - intros id now w o Ho Hd.
    unfold after, asyncHandler, updateOrderToDelivered.
    unfold bind, Order_findById, ret. by rewrite Ho, Hd.
Qed.

Lemma status_updates_ignore_current_status_witness :
  status_of 5%N (after (updateOrderStatus 5%N "shipped" 9) (order_book deliveredOrder))
    = Some "shipped" /\
  status_of 5%N (after (updateOrderToPaid 5%N 7%N "user" None 9) (order_book pendingOrder))
    = Some "processing" /\
  status_of 5%N (after (updateOrderToDelivered 5%N 9) (order_book pendingOrder))
    = Some "delivered" /\
  after (updateOrderToDelivered 5%N 9) (order_book deliveredOrder)
    = order_book deliveredOrder.
Proof.
  destruct status_updates_ignore_current_status as (Hs & Hp & Hd & _ & _ & Hdd).
  split; [|split; [|split]].
  - apply (Hs 5%N "shipped" 9 (order_book deliveredOrder) deliveredOrder);
      [reflexivity|]. unfold validStatuses. set_solver.
  - apply (Hp 5%N 7%N "user" None 9 (order_book pendingOrder) pendingOrder);
      [reflexivity|reflexivity|]. left. reflexivity.
  - apply (Hd 5%N 9 (order_book pendingOrder) pendingOrder); reflexivity.
  - apply (Hdd 5%N 9 (order_book deliveredOrder) deliveredOrder); reflexivity.
Defined.

(** C8 as worded fails: a delivered order is put back to "pending" by
    [updateOrderStatus]; a cancelled order becomes "delivered" through
    [updateOrderToDelivered] and "processing" through [updateOrderToPaid]. *)
Lemma status_leaves_delivered_and_cancelled :
  status_of 5%N (order_book deliveredOrder) = Some "delivered" /\
  status_of 5%N (after (updateOrderStatus 5%N "pending" 9) (order_book deliveredOrder))
    = Some "pending" /\
  status_of 5%N (order_book cancelledOrder) = Some "cancelled" /\
  status_of 5%N (after (updateOrderToDelivered 5%N 9) (order_book cancelledOrder))
    = Some "delivered" /\
  status_of 5%N (after (updateOrderToPaid 5%N 7%N "user" None 9) (order_book cancelledOrder))
    = Some "processing".
Proof. repeat split; vm_compute; reflexivity. Qed.

(** ** Precision and sign of the prices *)







(** The sign of a price is not looked at by [createOrder]: a cart line
    that carries a price of -5 is checked out when the Order schema lets
    the document through, and the subtotal and the tax stored are
    negative. *)
Example createOrder_negative_price_line :
  exists o,
    checkout_succeeded
      (fst (asyncHandler (createOrder accept_all 7%N anAddress "paypal")
              (shop mug [mkCartItem 1%N 1 (-5)]))) o /\
    od_itemsPrice (order_data o) = (-5)%float /\
    od_taxPrice (order_data o) = (-0.5)%float /\
    nonneg (od_itemsPrice (order_data o)) = false /\
    nonneg (od_taxPrice (order_data o)) = false.
Proof.
  eexists. split.
  - eexists. split; [reflexivity|]. split; reflexivity.
  - repeat split; vm_compute; reflexivity.
Qed.

(** ** Reading the cart *)

Lemma filter_length_le' {A} (f : A -> bool) (l : list A) :
  (length (List.filter f l) <= length l)%nat.
Proof. induction l as [|a l IH]; simpl; [lia|]. destruct (f a); simpl; lia. Qed.

Lemma filter_length_eq {A} (f : A -> bool) (l : list A) :
  length (List.filter f l) = length l -> List.filter f l = l.
Proof.
  induction l as [|a l IH]; simpl; [done|].
  destruct (f a); simpl; intros H.
  - f_equal. apply IH. lia.
  - pose proof (filter_length_le' f l). lia.
Qed.

Lemma depopulate_populate ps its :
  map depopulate_item (map (populate_item ps) its) = its.
Proof.
  induction its as [|[pid q pr] rest IH]; simpl; [done|]. by rewrite IH.
Qed.

Lemma validItem_spec item :
  validItem item = true <->
  exists p, p_product item = Some p /\ 0 < stock p /\ p_quantity item <= stock p.
Proof.
  unfold validItem. destruct (p_product item) as [p|].
  - rewrite andb_true_iff, Z.ltb_lt, Z.leb_le. split.
    + intros [? ?]. by exists p.
    + intros (p' & Hp & ? & ?). by inversion Hp; subst.
  - split; [discriminate|]. by intros (p & ? & _).
Qed.

(** C10: [getCart] answers with the cart reduced to the lines whose
    product exists, has stock above zero and has at least the line's
    quantity in stock, and that reduced cart is what the database holds
    afterwards; a line is dropped exactly when its product is missing, has
    no stock, or has less stock than the line asks for.  Products are not
    touched. *)
Theorem getCart_prunes user w :
  exists cart w',
    asyncHandler (getCart user) w =
      (Responded (mkResponse 200 true None (Some cart)), w') /\
    pc_items cart = List.filter validItem (lines_of user w) /\
    items <$> carts w' !! user = Some (map depopulate_item (pc_items cart)) /\
    products w' = products w /\
    Forall (fun item => exists p, p_product item = Some p /\ 0 < stock p /\
                                  p_quantity item <= stock p) (pc_items cart) /\
    (forall item, item ∈ lines_of user w ->
       item ∉ pc_items cart <->
       p_product item = None \/
       exists p, p_product item = Some p /\ (stock p <= 0 \/ stock p < p_quantity item)).
Proof.
  assert (forall L : list PopulatedItem,
    Forall (fun item => exists p, p_product item = Some p /\ 0 < stock p /\
                                  p_quantity item <= stock p) (List.filter validItem L) /\
    (forall item, item ∈ L ->
       item ∉ List.filter validItem L <->
       p_product item = None \/
       exists p, p_product item = Some p /\ (stock p <= 0 \/ stock p < p_quantity item)))
    as Hfilter.
  { intros L. split.
    - apply Forall_forall. intros item Hin.
      apply list_elem_of_In, filter_In in Hin as [_ Hv]. by apply validItem_spec.
    - intros item Hin. rewrite list_elem_of_In, filter_In, <- list_elem_of_In.
      split.
      + intros Hn. destruct (p_product item) as [p|] eqn:Hp; [|by left].
        right. exists p. split; [done|].
        destruct (decide (0 < stock p)); [|lia].
        destruct (decide (p_quantity item <= stock p)); [|lia].
        exfalso. apply Hn. split; [done|]. apply validItem_spec. by exists p.
      + intros Hbad [_ Hv]. apply validItem_spec in Hv as (p & Hp & ? & ?).
        destruct Hbad as [Hnone | (p' & Hp' & Hs)]; [congruence|].
        rewrite Hp in Hp'. inversion Hp'; subst. lia. }
  unfold asyncHandler, getCart, lines_of.
  unfold bind at 1. unfold Cart_findOne_populated.
  destruct (carts w !! user) as [c|] eqn:Hc; cbn [fmap option_fmap option_map].
  - unfold bind at 1. unfold ret at 1. unfold populate_cart. cbn [pc_items pc_id pc_user].
    destruct (Hfilter (map (populate_item (products w)) (items c))) as [Hall Hdrop].
    destruct (negb (length (List.filter validItem (map (populate_item (products w)) (items c)))
                    =? length (map (populate_item (products w)) (items c)))%nat) eqn:Hlen.
    + eexists _, _. split; [reflexivity|]. cbn.
      split; [done|]. split; [|done].
      by rewrite lookup_alter_eq, Hc.
    + apply negb_false_iff, Nat.eqb_eq, filter_length_eq in Hlen.
      eexists _, _. split; [reflexivity|]. cbn. rewrite Hlen in *.
      split; [done|]. split; [|done].
      by rewrite Hc, depopulate_populate.
  - eexists _, _. split; [reflexivity|]. cbn.
    split; [done|]. split; [by rewrite lookup_insert_eq|]. split; [done|].
    split; [constructor|]. intros item Hin. by apply elem_of_nil in Hin.
Qed.

Example getCart_drops_short_and_dangling_lines :
  (pc_items <$> data
     match fst (asyncHandler (getCart 7%N)
                  (shop mug [mkCartItem 1%N 6 50; mkCartItem 1%N 2 50; mkCartItem 2%N 1 1]))
     with
     | Responded r => r
     | Thrown _ => mkResponse 500 false None None
     end) = Some [mkPopulatedItem (Some mug) 1%N 2 50] /\
  items <$> carts (after (getCart 7%N)
                     (shop mug [mkCartItem 1%N 6 50; mkCartItem 1%N 2 50; mkCartItem 2%N 1 1]))
              !! 7%N = Some [mkCartItem 1%N 2 50].
Proof. split; reflexivity. Qed.

(** ** The price of a cart line *)

Lemma snapshot_of_stored ps its ois :
  Forall2 snapshot_of (map (populate_item ps) its) ois ->
  Forall2 (fun line oi => oi_product oi = product line /\
                          oi_quantity oi = quantity line /\
                          oi_price oi = item_price line) its ois.
Proof.
  revert ois. induction its as [|line rest IH]; intros ois H; inversion H; subst.
  - constructor.
  - constructor; [|by apply IH].
    match goal with Hs : snapshot_of _ _ |- _ => destruct Hs as (p & _ & ->) end.
    done.
Qed.

(** What [+] makes of a stored quantity and the body's value, on
    examples: the sum for a number; for a string the digits of the two,
    one after the other. *)
Example plus_quantity_concatenates :
  plus_quantity 2 (JNumber 3) = 5 /\
  plus_quantity 2 (JString 3) = 23 /\
  pretty (plus_quantity 2 (JString 3)) = pretty (2 : Z) +:+ quantity_text (JString 3) /\
  pretty (plus_quantity 12 (JString 10)) = pretty (12 : Z) +:+ quantity_text (JString 10).
Proof. repeat split; vm_compute; reflexivity. Qed.

(** Only the string [toString] gives is ever found in a cart. *)
Lemma findIndex_Spelled id l : findIndex (is_product (Spelled id)) l = None.
Proof. induction l as [|a l IH]; simpl; [done|]. by rewrite IH. Qed.

Lemma findIndex_Malformed l : findIndex (is_product Malformed) l = None.
Proof. induction l as [|a l IH]; simpl; [done|]. by rewrite IH. Qed.

(** C5, as the code has it: a checkout charges each line at the price
    stored in the cart line, whatever the product's price is by then, and
    editing a product never writes to a cart; but the stored price is not
    fixed at add-time: [updateCartItem], and [addToCart] for a product
    already in the cart, store the product's current price in the line
    together with the new quantity.  The quantity is the one of the
    request for [updateCartItem]; for [addToCart] it is what JavaScript's
    [+] makes of the stored quantity and the body's value. *)
Theorem cart_line_price_rules :
  (forall ok user sa pm w out w' o c,
     asyncHandler (createOrder ok user sa pm) w = (out, w') ->
     checkout_succeeded out o ->
     carts w !! user = Some c ->
     Forall2 (fun line oi => oi_product oi = product line /\
                             oi_quantity oi = quantity line /\
                             oi_price oi = item_price line)
             (items c) (od_orderItems (order_data o)) /\
     od_itemsPrice (order_data o) = sum_cart (items c)) /\
  (forall id newPrice newStock w,
     carts (after (updateProduct id newPrice newStock) w) = carts w) /\
  (forall user productId qty w r w',
     asyncHandler (updateCartItem user productId qty) w = (Responded r, w') ->
     res_status r = 200 ->
     exists c i line id prod,
       carts w !! user = Some c /\
       findIndex (is_product productId) (items c) = Some i /\
       items c !! i = Some line /\
       productId = Hex id /\
       products w !! id = Some prod /\
       carts w' !! user =
         Some (mkCart (cart_id c)
                 (<[i := mkCartItem (product line) (to_number qty) (price prod)]>
                    (items c)))) /\
  (forall user productId qty w r w' c i,
     asyncHandler (addToCart user productId qty) w = (Responded r, w') ->
     res_status r = 201 ->
     carts w !! user = Some c ->
     findIndex (is_product productId) (items c) = Some i ->
     exists line id prod,
       items c !! i = Some line /\
       productId = Hex id /\
       products w !! id = Some prod /\
       carts w' !! user =
         Some (mkCart (cart_id c)
                 (<[i := mkCartItem (product line) (plus_quantity (quantity line) qty)
                           (price prod)]>
                    (items c)))).
Proof.
  split; [|split; [|split]].
  - intros ok user sa pm w out w' o c Hrun Hok Hc.
    destruct (createOrder_success_inv _ _ _ _ _ _ _ _ Hrun Hok)
      as (c' & ois & total & Hc' & _ & Hchk & _ & -> & _).
    rewrite Hc in Hc'. inversion Hc'; subst c'. clear Hc'.
    apply checkItems_inr in Hchk as (_ & Hsum & new & -> & Hsnap).
    unfold lines_of in *. rewrite Hc in *.
    fold (sum_lines (map (populate_item (products w)) (items c))) in Hsum.
    rewrite sum_lines_populate in Hsum.
    unfold order_of, new_order. cbn [order_data od_orderItems od_itemsPrice app]. split.
    + by apply snapshot_of_stored in Hsnap.
    + done.
  - intros id newPrice newStock w.
    unfold after, asyncHandler, updateProduct, bind, Product_findById, ret, throw.
    destruct (products w !! id) as [p|]; [|done].
    by destruct (from_option (PrimFloat.leb 0) true newPrice
                 && from_option (Z.leb 0) true newStock).
  - intros user productId qty w r w' Hrun Hst.
    unfold asyncHandler, updateCartItem, bind, Cart_findOne, Product_findById_string,
      Cart_save_items, Cart_findOne_populated, ret, throw in Hrun.
    destruct (carts w !! user) as [c|] eqn:Hc.
    2: { inversion Hrun; subst. discriminate. }
    destruct (findIndex (is_product productId) (items c)) as [i|] eqn:Hi.
    2: { inversion Hrun; subst. discriminate. }
    destruct productId as [id|id|]; cbn [cast_id] in Hrun.
    2: { by rewrite findIndex_Spelled in Hi. }
    2: { by rewrite findIndex_Malformed in Hi. }
    destruct (products w !! id) as [prod|] eqn:Hp.
    2: { inversion Hrun; subst. discriminate. }
    destruct (stock prod <? to_number qty).
    { inversion Hrun; subst. discriminate. }
    destruct (items c !! i) as [line|] eqn:Hl; [|discriminate].
    inversion Hrun; subst. cbn.
    exists c, i, line, id, prod. repeat split; try done.
    by rewrite lookup_alter_eq, Hc.
  - intros user productId qty w r w' c i Hrun Hst Hc Hi.
    unfold asyncHandler, addToCart, bind, Cart_findOne, Product_findById_string,
      Cart_save_items, Cart_findOne_populated, ret, throw in Hrun.
    destruct productId as [id|id|]; cbn [cast_id] in Hrun.
    2: { by rewrite findIndex_Spelled in Hi. }
    2: { by rewrite findIndex_Malformed in Hi. }
    destruct (products w !! id) as [prod|] eqn:Hp.
    2: { inversion Hrun; subst. discriminate. }
    destruct (negb (isActive prod)).
    { inversion Hrun; subst. discriminate. }
    destruct (stock prod <? to_number qty).
    { inversion Hrun; subst. discriminate. }
    rewrite Hc, Hi in Hrun.
    destruct (items c !! i) as [line|] eqn:Hl; [|discriminate].
    destruct (stock prod <? plus_quantity (quantity line) qty).
    { inversion Hrun; subst. discriminate. }
    inversion Hrun; subst. cbn.
    exists line, id, prod. repeat split; try done.
    by rewrite lookup_alter_eq, Hc.
Qed.

Lemma cart_line_price_rules_witness :
  (exists c i line id prod,
     carts shop_repriced !! 7%N = Some c /\
     findIndex (is_product (Hex 1%N)) (items c) = Some i /\
     items c !! i = Some line /\
     Hex 1%N = Hex id /\
     products shop_repriced !! id = Some prod /\
     carts shop_requantified !! 7%N =
       Some (mkCart (cart_id c) (<[i := mkCartItem (product line) 2 (price prod)]> (items c))))
  /\ carts shop_repriced = carts shop_added.
Proof.
  destruct cart_line_price_rules as (_ & Hedit & Hupd & _).
  split.
  - refine (Hupd 7%N (Hex 1%N) (JNumber 2) shop_repriced
              (mkResponse 200 true (Some "Cart item updated successfully")
                 (Some (mkPopulatedCart 100%N 7%N
                          [mkPopulatedItem (Some (mkProduct "Mug" 80 5 ["mug.png"] true))
                             1%N 2 80])))
              shop_requantified _ eq_refl).
    vm_compute. reflexivity.
  - apply (Hedit 1%N (Some 80%float) None shop_added).
Defined.

(** C5 as worded fails: a line added at 50, after the product is repriced
    to 80, still holds 50; a quantity update then rewrites it to 80, and
    the checkout charges 2 x 80.  Adding one more of the product instead
    of updating the quantity rewrites the price to 80 as well. *)
Lemma cart_price_changes_on_quantity_update :
  items <$> carts shop_added !! 7%N = Some [mkCartItem 1%N 1 50] /\
  items <$> carts shop_repriced !! 7%N = Some [mkCartItem 1%N 1 50] /\
  price <$> products shop_repriced !! 1%N = Some 80%float /\
  items <$> carts shop_requantified !! 7%N = Some [mkCartItem 1%N 2 80] /\
  items <$> carts (after (addToCart 7%N (Hex 1%N) (JNumber 1)) shop_repriced) !! 7%N =
    Some [mkCartItem 1%N 2 80] /\
  (80 =? 50)%float = false /\
  (exists o,
     checkout_succeeded
       (fst (asyncHandler (createOrder accept_all 7%N anAddress "paypal") shop_requantified))
       o /\
     od_itemsPrice (order_data o) = 160%float).
Proof.
  split; [reflexivity|]. split; [reflexivity|]. split; [reflexivity|].
  split; [reflexivity|]. split; [reflexivity|]. split; [reflexivity|].
  eexists. split.
  - eexists. split; [reflexivity|]. split; reflexivity.
  - reflexivity.
Qed.

(** ** Cart handlers: when they write, and what *)

Lemma findIndex_Some {A} (f : A -> bool) (l : list A) i :
  findIndex f l = Some i ->
  exists x, l !! i = Some x /\ f x = true /\ List.find f l = Some x /\
            Forall (fun y => f y = false) (take i l).
Proof.
  revert i. induction l as [|a l IH]; intros i H; simpl in H; [discriminate|].
  destruct (f a) eqn:Hfa.
  - inversion H; subst. exists a. simpl. rewrite Hfa. repeat split; first [done | constructor].
  - destruct (findIndex f l) as [j|] eqn:Hj; [|discriminate].
    simpl in H. inversion H; subst.
    destruct (IH j eq_refl) as (x & Hx & Hfx & Hfind & Hbefore).
    exists x. simpl. rewrite Hfa. repeat split; first [done | by constructor].
Qed.

Lemma findIndex_None {A} (f : A -> bool) (l : list A) :
  findIndex f l = None -> Forall (fun y => f y = false) l /\ List.find f l = None.
Proof.
  induction l as [|a l IH]; intros H; simpl in *; [by split; [constructor|]|].
  destruct (f a) eqn:Hfa; [discriminate|].
  destruct (findIndex f l); [discriminate|].
  destruct (IH eq_refl) as [? ?]. split; [by constructor|done].
Qed.

Lemma find_findIndex {A} (f : A -> bool) (l : list A) :
  List.find f l = None <-> findIndex f l = None.
Proof.
  split.
  - intros H. destruct (findIndex f l) as [i|] eqn:Hi; [|done].
    apply findIndex_Some in Hi as (x & _ & _ & Hx & _). congruence.
  - intros H. by apply findIndex_None.
Qed.

Lemma is_product_true id item :
  is_product (Hex id) item = true <-> product item = id.
Proof. unfold is_product. by rewrite bool_decide_eq_true. Qed.

Lemma is_product_false id item :
  is_product (Hex id) item = false <-> product item <> id.
Proof. unfold is_product. by rewrite bool_decide_eq_false. Qed.

(** A line the handlers find was asked for by the string [toString]
    gives of its product. *)
Lemma is_product_Hex productId item :
  is_product productId item = true -> productId = Hex (product item).
Proof.
  destruct productId as [id|id|]; simpl; [|done|done].
  rewrite bool_decide_eq_true. by intros ->.
Qed.

Lemma is_product_other other item :
  other <> Hex (product item) -> is_product other item = false.
Proof.
  destruct other as [id|id|]; simpl; [|done|done].
  intros H. apply bool_decide_eq_false. congruence.
Qed.

Lemma db_eta w : mkDb (products w) (carts w) (orders w) (next_id w) = w.
Proof. by destruct w. Qed.

Lemma alter_set_items_id (m : gmap ObjectId Cart) user c :
  m !! user = Some c -> alter (set_items (items c)) user m = m.
Proof.
  intros Hc. apply map_eq. intros u. destruct (decide (user = u)) as [->|Hne].
  - rewrite lookup_alter_eq, Hc. by destruct c.
  - by rewrite lookup_alter_ne.
Qed.

Ltac run_handler H :=
  unfold asyncHandler, bind, Cart_findOne, Cart_create, Product_findById,
    Product_findById_string, Cart_save_items, Cart_findOne_populated, ret, throw in H.

Ltac refused H := inversion H; subst; clear H; first [done | discriminate].

(** Every way [addToCart] can end. *)
Lemma addToCart_cases user productId qty w out w' :
  asyncHandler (addToCart user productId qty) w = (out, w') ->
  (is_status 201 out = false /\ w' = w /\
   (cast_id productId = None \/
    exists id, cast_id productId = Some id /\
      (products w !! id = None \/
       exists prod, products w !! id = Some prod /\
         (isActive prod = false \/ stock prod < to_number qty \/
          exists line, line_for user productId w = Some line /\
                       stock prod < plus_quantity (quantity line) qty)))) \/
  (is_status 201 out = true /\
   exists id prod,
     cast_id productId = Some id /\
     products w !! id = Some prod /\ isActive prod = true /\
     to_number qty <= stock prod /\
     ((exists c i line,
         carts w !! user = Some c /\
         findIndex (is_product productId) (items c) = Some i /\
         items c !! i = Some line /\
         plus_quantity (quantity line) qty <= stock prod /\
         w' = with_items user
                (<[i := mkCartItem (product line) (plus_quantity (quantity line) qty)
                          (price prod)]>
                   (items c)) w) \/
      (exists c,
         carts w !! user = Some c /\
         findIndex (is_product productId) (items c) = None /\
         w' = with_items user (items c ++ [mkCartItem id (to_number qty) (price prod)]) w) \/
      (carts w !! user = None /\
       w' = with_items user [mkCartItem id (to_number qty) (price prod)]
              (with_new_cart user w)))).
Proof.
  intros H. unfold addToCart in H. run_handler H. unfold line_for.
  destruct (cast_id productId) as [id|] eqn:Hid.
  2: { left. inversion H; subst. repeat split; eauto. }
  destruct (products w !! id) as [prod|] eqn:Hp.
  2: { left. inversion H; subst. split; [done|]. split; [done|]. right.
       exists id. split; [done|]. by left. }
  destruct (isActive prod) eqn:Hact; cbn [negb] in H.
  2: { left. inversion H; subst. split; [done|]. split; [done|]. right.
       exists id. split; [done|]. right. exists prod. split; [done|]. by left. }
  destruct (stock prod <? to_number qty) eqn:Hs.
  { apply Z.ltb_lt in Hs. left. inversion H; subst. split; [done|]. split; [done|].
    right. exists id. split; [done|]. right. exists prod. split; [done|].
    right. by left. }
  apply Z.ltb_ge in Hs.
  destruct (carts w !! user) as [c|] eqn:Hc.
  - destruct (findIndex (is_product productId) (items c)) as [i|] eqn:Hi.
    + destruct (findIndex_Some _ _ _ Hi) as (line & Hl & _ & Hfind & _).
      rewrite Hl in H.
      destruct (stock prod <? plus_quantity (quantity line) qty) eqn:Hs2.
      * apply Z.ltb_lt in Hs2. left. inversion H; subst.
        split; [done|]. split; [done|]. right. exists id. split; [done|].
        right. exists prod. split; [done|].
        right. right. by exists line.
      * apply Z.ltb_ge in Hs2. right. inversion H; subst. split; [done|].
        exists id, prod. repeat split; try done. left. by exists c, i, line.
    + right. inversion H; subst. split; [done|].
      exists id, prod. repeat split; try done. right. left. by exists c.
  - cbn in H. right. inversion H; subst. split; [done|].
    exists id, prod. repeat split; try done. right. right. done.
Qed.

(** Every way [updateCartItem] can end. *)
Lemma updateCartItem_cases user productId qty w out w' :
  asyncHandler (updateCartItem user productId qty) w = (out, w') ->
  (is_status 200 out = false /\ w' = w /\
   (line_for user productId w = None \/
    exists line, line_for user productId w = Some line /\
      (products w !! product line = None \/
       exists prod, products w !! product line = Some prod /\
                    stock prod < to_number qty))) \/
  (is_status 200 out = true /\
   exists c i line prod,
     carts w !! user = Some c /\
     findIndex (is_product productId) (items c) = Some i /\
     items c !! i = Some line /\
     products w !! product line = Some prod /\ to_number qty <= stock prod /\
     w' = with_items user
            (<[i := mkCartItem (product line) (to_number qty) (price prod)]> (items c)) w).
Proof.
  intros H. unfold updateCartItem in H. run_handler H. unfold line_for.
  destruct (carts w !! user) as [c|] eqn:Hc.
  2: { left. inversion H; subst. repeat split; eauto. }
  destruct (findIndex (is_product productId) (items c)) as [i|] eqn:Hi.
  2: { left. inversion H; subst. split; [done|]. split; [done|]. left.
       by apply find_findIndex. }
  destruct (findIndex_Some _ _ _ Hi) as (line & Hl & Hf & Hfind & _).
  rewrite (is_product_Hex _ _ Hf) in H. cbn [cast_id] in H.
  destruct (products w !! product line) as [prod|] eqn:Hp.
  2: { left. inversion H; subst. split; [done|]. split; [done|]. right.
       exists line. split; [done|]. by left. }
  destruct (stock prod <? to_number qty) eqn:Hs.
  { apply Z.ltb_lt in Hs. left. inversion H; subst. split; [done|]. split; [done|].
    right. exists line. split; [done|]. right. by exists prod. }
  apply Z.ltb_ge in Hs. rewrite Hl in H.
  right. inversion H; subst. split; [done|]. by exists c, i, line, prod.
Qed.

(** Every way [removeFromCart] can end. *)
Lemma removeFromCart_cases user productId w out w' :
  asyncHandler (removeFromCart user productId) w = (out, w') ->
  (is_status 200 out = false /\ w' = w /\ line_for user productId w = None) \/
  (is_status 200 out = true /\
   exists c i,
     carts w !! user = Some c /\
     findIndex (is_product productId) (items c) = Some i /\
     w' = with_items user (delete i (items c)) w).
Proof.
  intros H. unfold removeFromCart in H. run_handler H. unfold line_for.
  destruct (carts w !! user) as [c|] eqn:Hc.
  2: { left. inversion H; subst. repeat split; eauto. }
  destruct (findIndex (is_product productId) (items c)) as [i|] eqn:Hi.
  2: { left. inversion H; subst. split; [done|]. split; [done|].
       by apply find_findIndex. }
  right. inversion H; subst. split; [done|]. by exists c, i.
Qed.

(** Every way [clearCart] can end. *)
Lemma clearCart_cases user w out w' :
  asyncHandler (clearCart user) w = (out, w') ->
  (is_status 200 out = false /\ w' = w /\ carts w !! user = None) \/
  (is_status 200 out = true /\
   exists c, carts w !! user = Some c /\ w' = with_items user [] w).
Proof.
  intros H. unfold clearCart in H. run_handler H.
  destruct (carts w !! user) as [c|] eqn:Hc.
  - right. inversion H; subst. split; [done|]. by exists c.
  - left. inversion H; subst. done.
Qed.

Lemma find_insert_at {A} (f : A -> bool) (l : list A) i y :
  findIndex f l = Some i -> f y = true -> List.find f (<[i := y]> l) = Some y.
Proof.
  revert i. induction l as [|a l IH]; intros i Hi Hy; simpl in Hi; [discriminate|].
  destruct (f a) eqn:Hfa.
  - inversion Hi; subst. simpl. by rewrite Hy.
  - destruct (findIndex f l) as [j|]; [|discriminate]. inversion Hi; subst.
    simpl. rewrite Hfa. by apply IH.
Qed.

Lemma find_app_new {A} (f : A -> bool) (l : list A) y :
  findIndex f l = None -> f y = true -> List.find f (l ++ [y]) = Some y.
Proof.
  induction l as [|a l IH]; intros Hi Hy; simpl in *; [by rewrite Hy|].
  destruct (f a); [discriminate|].
  destruct (findIndex f l); [discriminate|]. by apply IH.
Qed.

Lemma find_insert_other {A} (f : A -> bool) (l : list A) i x y :
  l !! i = Some x -> f x = false -> f y = false ->
  List.find f (<[i := y]> l) = List.find f l.
Proof.
  revert i. induction l as [|a l IH]; intros i Hx Hfx Hfy; [done|].
  destruct i as [|i]; simpl in *.
  - inversion Hx; subst. by rewrite Hfx, Hfy.
  - destruct (f a); [done|]. by apply IH.
Qed.

Lemma find_app_other {A} (f : A -> bool) (l : list A) y :
  f y = false -> List.find f (l ++ [y]) = List.find f l.
Proof.
  intros Hy. induction l as [|a l IH]; simpl; [by rewrite Hy|].
  by destruct (f a).
Qed.


Lemma line_for_with_items user productId its w c :
  carts w !! user = Some c ->
  line_for user productId (with_items user its w) = List.find (is_product productId) its.
Proof.
  intros Hc. unfold line_for, with_items. cbn [carts].
  by rewrite lookup_alter_eq, Hc.
Qed.

Lemma stored_lines_with_items user its w c :
  carts w !! user = Some c -> stored_lines user (with_items user its w) = its.
Proof.
  intros Hc. unfold stored_lines, with_items. cbn [carts].
  by rewrite lookup_alter_eq, Hc.
Qed.

(** X2: A cart handler that does not answer with its success status has
    written nothing: [addToCart] (201), [updateCartItem], [removeFromCart]
    and [clearCart] (200) leave the whole database as it was whenever they
    refuse, including [addToCart] for a user who had no cart yet. *)
Theorem cart_handlers_write_only_on_success :
  (forall user productId qty w,
     is_status 201 (fst (asyncHandler (addToCart user productId qty) w)) = false ->
     after (addToCart user productId qty) w = w) /\
  (forall user productId qty w,
     is_status 200 (fst (asyncHandler (updateCartItem user productId qty) w)) = false ->
     after (updateCartItem user productId qty) w = w) /\
  (forall user productId w,
     is_status 200 (fst (asyncHandler (removeFromCart user productId) w)) = false ->
     after (removeFromCart user productId) w = w) /\
  (forall user w,
     is_status 200 (fst (asyncHandler (clearCart user) w)) = false ->
     after (clearCart user) w = w).
Proof.
  unfold after. repeat split.
  - intros user productId qty w H.
    destruct (addToCart_cases user productId qty w _ _ (surjective_pairing _))
      as [(_ & ? & _) | (Hs & _)]; [done | congruence].
  - intros user productId qty w H.
    destruct (updateCartItem_cases user productId qty w _ _ (surjective_pairing _))
      as [(_ & ? & _) | (Hs & _)]; [done | congruence].
  - intros user productId w H.
    destruct (removeFromCart_cases user productId w _ _ (surjective_pairing _))
      as [(_ & ? & _) | (Hs & _)]; [done | congruence].
  - intros user w H.
    destruct (clearCart_cases user w _ _ (surjective_pairing _))
      as [(_ & ? & _) | (Hs & _)]; [done | congruence].
Qed.

Lemma cart_handlers_write_only_on_success_witness :
  after (addToCart 7%N (Hex 1%N) (JNumber 6)) (shop mug [mkCartItem 1%N 2 50]) =
    shop mug [mkCartItem 1%N 2 50] /\
  after (removeFromCart 7%N (Hex 2%N)) (shop mug [mkCartItem 1%N 2 50]) =
    shop mug [mkCartItem 1%N 2 50].
Proof.
  destruct cart_handlers_write_only_on_success as (Hadd & _ & Hrem & _).
  split; [apply Hadd | apply Hrem]; reflexivity.
Defined.

(** X3: [addToCart] answers 201 exactly when the request's id casts to
    the id of a product that exists, is active and has at least the
    requested quantity in stock, and, if the handler finds a line for the
    id in the cart, has at least what [+] makes of that line's quantity
    and the requested one. *)
Theorem addToCart_accepts_iff user productId qty w :
  is_status 201 (fst (asyncHandler (addToCart user productId qty) w)) = true <->
  exists id prod,
    cast_id productId = Some id /\
    products w !! id = Some prod /\ isActive prod = true /\
    to_number qty <= stock prod /\
    forall line, line_for user productId w = Some line ->
                 plus_quantity (quantity line) qty <= stock prod.
Proof.
  destruct (addToCart_cases user productId qty w _ _ (surjective_pairing _))
    as [(Hs & _ & Hwhy) | (Hs & id & prod & Hid & Hp & Hact & Hq & Hhow)]; rewrite Hs.
  - split; [discriminate|]. intros (id & prod & Hid & Hp & Hact & Hq & Hline). exfalso.
    destruct Hwhy as [Hnone | (id' & Hid' & Hwhy)]; [congruence|].
    rewrite Hid in Hid'. inversion Hid'; subst id'.
    destruct Hwhy as [Hnone | (prod' & Hp' & Hwhy)]; [congruence|].
    rewrite Hp in Hp'. inversion Hp'; subst prod'.
    destruct Hwhy as [? | [? | (line & Hl & ?)]]; [congruence | lia |].
    specialize (Hline line Hl). lia.
  - split; [|done]. intros _. exists id, prod. repeat split; try done.
    intros line Hl. unfold line_for in Hl.
    destruct Hhow as [(c & i & line' & Hc & Hi & Hl' & Hb & _) | [(c & Hc & Hi & _) | (Hc & _)]];
      rewrite Hc in Hl.
    + apply findIndex_Some in Hi as (x & Hx & _ & Hfind & _).
      rewrite Hfind in Hl. inversion Hl; subst.
      rewrite Hx in Hl'. by inversion Hl'; subst.
    + apply find_findIndex in Hi. congruence.
    + discriminate.
Qed.

(** X4: After an accepted [addToCart] whose id is the string [toString]
    gives, the cart holds one line for the product, found first, whose
    quantity is what [+] makes of the quantity the line held before and
    the requested one (the requested one alone, for a new line), is within
    the product's stock, and whose price is the product's current price;
    the lines found for any other id, the products and the orders are as
    before. *)
Theorem addToCart_stores_line user id qty w :
  is_status 201 (fst (asyncHandler (addToCart user (Hex id) qty) w)) = true ->
  exists prod,
    products w !! id = Some prod /\
    line_for user (Hex id) (after (addToCart user (Hex id) qty) w) =
      Some (mkCartItem id
              (from_option (fun line => plus_quantity (quantity line) qty) (to_number qty)
                 (line_for user (Hex id) w))
              (price prod)) /\
    from_option (fun line => plus_quantity (quantity line) qty) (to_number qty)
      (line_for user (Hex id) w) <= stock prod /\
    (forall other, other <> Hex id ->
       line_for user other (after (addToCart user (Hex id) qty) w) =
       line_for user other w) /\
    products (after (addToCart user (Hex id) qty) w) = products w /\
    orders (after (addToCart user (Hex id) qty) w) = orders w.
Proof.
  intros Hok. unfold after.
  destruct (addToCart_cases user (Hex id) qty w _ _ (surjective_pairing _))
    as [(Hs & _) | (_ & id' & prod & Hid & Hp & Hact & Hq & Hhow)]; [congruence|].
  cbn in Hid. inversion Hid; subst id'. clear Hid.
  exists prod. split; [done|].
  destruct Hhow as [(c & i & line & Hc & Hi & Hl & Hb & ->) | [(c & Hc & Hi & ->) | (Hc & ->)]].
  - destruct (findIndex_Some _ _ _ Hi) as (x & Hx & Hfx & Hfind & _).
    rewrite Hl in Hx. inversion Hx; subst x. apply is_product_true in Hfx.
    assert (line_for user (Hex id) w = Some line) as Hline.
    { unfold line_for. by rewrite Hc. }
    rewrite Hline. cbn [from_option]. rewrite (line_for_with_items _ _ _ _ _ Hc).
    rewrite Hfx. split.
    { apply find_insert_at; [done|]. by apply is_product_true. }
    split; [done|]. split; [|done].
    intros other Hne. rewrite (line_for_with_items _ _ _ _ _ Hc).
    unfold line_for. rewrite Hc.
    apply (find_insert_other _ _ _ line); [done| |]; apply is_product_other; cbn; congruence.
  - assert (line_for user (Hex id) w = None) as Hline.
    { unfold line_for. rewrite Hc. by apply find_findIndex. }
    rewrite Hline. cbn [from_option]. rewrite (line_for_with_items _ _ _ _ _ Hc).
    split.
    { apply find_app_new; [done|]. by apply is_product_true. }
    split; [lia|]. split; [|done].
    intros other Hne. rewrite (line_for_with_items _ _ _ _ _ Hc).
    unfold line_for. rewrite Hc.
    apply find_app_other. by apply is_product_other.
  - assert (line_for user (Hex id) w = None) as Hline.
    { unfold line_for. by rewrite Hc. }
    rewrite Hline. cbn [from_option].
    assert (carts (with_new_cart user w) !! user = Some (mkCart (next_id w) [])) as Hnew.
    { unfold with_new_cart. cbn. by rewrite lookup_insert_eq. }
    rewrite (line_for_with_items _ _ _ _ _ Hnew). split.
    { cbn [List.find].
      by rewrite (proj2 (is_product_true id (mkCartItem id (to_number qty) (price prod)))). }
    split; [lia|]. split; [|done].
    intros other Hne. rewrite (line_for_with_items _ _ _ _ _ Hnew).
    unfold line_for. rewrite Hc. cbn [List.find].
    by rewrite (is_product_other other (mkCartItem id (to_number qty) (price prod))).
Qed.

Lemma addToCart_stores_line_witness :
  exists prod,
    products (shop mug [mkCartItem 1%N 2 50]) !! 1%N = Some prod /\
    line_for 7%N (Hex 1%N)
      (after (addToCart 7%N (Hex 1%N) (JNumber 3)) (shop mug [mkCartItem 1%N 2 50])) =
      Some (mkCartItem 1%N
              (from_option (fun line => plus_quantity (quantity line) (JNumber 3))
                 (to_number (JNumber 3))
                 (line_for 7%N (Hex 1%N) (shop mug [mkCartItem 1%N 2 50])))
              (price prod)) /\
    from_option (fun line => plus_quantity (quantity line) (JNumber 3))
      (to_number (JNumber 3)) (line_for 7%N (Hex 1%N) (shop mug [mkCartItem 1%N 2 50]))
      <= stock prod /\
    (forall other, other <> Hex 1%N ->
       line_for 7%N other
         (after (addToCart 7%N (Hex 1%N) (JNumber 3)) (shop mug [mkCartItem 1%N 2 50])) =
       line_for 7%N other (shop mug [mkCartItem 1%N 2 50])) /\
    products (after (addToCart 7%N (Hex 1%N) (JNumber 3)) (shop mug [mkCartItem 1%N 2 50])) =
      products (shop mug [mkCartItem 1%N 2 50]) /\
    orders (after (addToCart 7%N (Hex 1%N) (JNumber 3)) (shop mug [mkCartItem 1%N 2 50])) =
      orders (shop mug [mkCartItem 1%N 2 50]).
Proof. apply addToCart_stores_line. reflexivity. Defined.

(** X5: [updateCartItem] answers 200 exactly when the handler finds a
    line for the request's id in the cart, and the line's product exists
    and has at least the requested quantity in stock; whether the product
    is active is not looked at.  The line then holds the requested
    quantity and the product's current price, and the lines found for any
    other id are as before. *)
Theorem updateCartItem_accepts_iff user productId qty w :
  (is_status 200 (fst (asyncHandler (updateCartItem user productId qty) w)) = true <->
   exists line prod,
     line_for user productId w = Some line /\
     products w !! product line = Some prod /\ to_number qty <= stock prod) /\
  (is_status 200 (fst (asyncHandler (updateCartItem user productId qty) w)) = true ->
   exists line prod,
     line_for user productId w = Some line /\
     products w !! product line = Some prod /\
     line_for user productId (after (updateCartItem user productId qty) w) =
       Some (mkCartItem (product line) (to_number qty) (price prod)) /\
     forall other, other <> productId ->
       line_for user other (after (updateCartItem user productId qty) w) =
       line_for user other w).
Proof.
  unfold after.
  destruct (updateCartItem_cases user productId qty w _ _ (surjective_pairing _))
    as [(Hs & _ & Hwhy) | (Hs & c & i & line & prod & Hc & Hi & Hl & Hp & Hq & ->)];
    rewrite Hs.
  - split; [|discriminate]. split; [discriminate|].
    intros (line & prod & Hline & Hp & Hq). exfalso.
    destruct Hwhy as [? | (line' & Hline' & Hwhy)]; [congruence|].
    rewrite Hline in Hline'. inversion Hline'; subst line'.
    destruct Hwhy as [? | (prod' & Hp' & ?)]; [congruence|].
    rewrite Hp in Hp'. inversion Hp'; subst. lia.
  - destruct (findIndex_Some _ _ _ Hi) as (x & Hx & Hfx & Hfind & _).
    rewrite Hl in Hx. inversion Hx; subst x.
    pose proof (is_product_Hex _ _ Hfx) as Hpid.
    assert (line_for user productId w = Some line) as Hline.
    { unfold line_for. by rewrite Hc. }
    split.
    + split; [|done]. intros _. by exists line, prod.
    + intros _. exists line, prod. split; [done|]. split; [done|].
      rewrite (line_for_with_items _ _ _ _ _ Hc). split.
      * apply find_insert_at; [done|]. rewrite Hpid. by apply is_product_true.
      * intros other Hne. rewrite (line_for_with_items _ _ _ _ _ Hc).
        unfold line_for. rewrite Hc.
        apply (find_insert_other _ _ _ line); [done| |]; apply is_product_other; cbn;
          congruence.
Qed.

(** The same cart accepts a quantity update for a retired product and
    refuses to have one more added. *)
Lemma updateCartItem_accepts_iff_witness :
  is_status 200 (fst (asyncHandler (updateCartItem 7%N (Hex 1%N) (JNumber 4))
                        (shop retiredMug [mkCartItem 1%N 2 50]))) = true /\
  is_status 201 (fst (asyncHandler (addToCart 7%N (Hex 1%N) (JNumber 1))
                        (shop retiredMug [mkCartItem 1%N 2 50]))) = false /\
  exists line prod,
    line_for 7%N (Hex 1%N) (shop retiredMug [mkCartItem 1%N 2 50]) = Some line /\
    products (shop retiredMug [mkCartItem 1%N 2 50]) !! product line = Some prod /\
    line_for 7%N (Hex 1%N) (after (updateCartItem 7%N (Hex 1%N) (JNumber 4))
                              (shop retiredMug [mkCartItem 1%N 2 50])) =
      Some (mkCartItem (product line) (to_number (JNumber 4)) (price prod)) /\
    forall other, other <> Hex 1%N ->
      line_for 7%N other (after (updateCartItem 7%N (Hex 1%N) (JNumber 4))
                            (shop retiredMug [mkCartItem 1%N 2 50])) =
      line_for 7%N other (shop retiredMug [mkCartItem 1%N 2 50]).
Proof.
  assert (is_status 200 (fst (asyncHandler (updateCartItem 7%N (Hex 1%N) (JNumber 4))
                                (shop retiredMug [mkCartItem 1%N 2 50]))) = true) as H.
  { apply (proj1 (updateCartItem_accepts_iff 7%N (Hex 1%N) (JNumber 4)
                    (shop retiredMug [mkCartItem 1%N 2 50]))).
    exists (mkCartItem 1%N 2 50), retiredMug.
    split; [reflexivity | split; [reflexivity | cbn; lia]]. }
  split; [exact H|]. split; [reflexivity|].
  exact (proj2 (updateCartItem_accepts_iff 7%N (Hex 1%N) (JNumber 4)
                  (shop retiredMug [mkCartItem 1%N 2 50])) H).
Defined.

Lemma map_product_insert_same (l : list CartItem) i line q p :
  l !! i = Some line ->
  map product (<[i := mkCartItem (product line) q p]> l) = map product l.
Proof.
  intros Hl. change (map product) with (fmap (M := list) product).
  rewrite list_fmap_insert. cbn. apply list_insert_id.
  by rewrite list_lookup_fmap, Hl.
Qed.

Lemma not_in_cart (l : list CartItem) id :
  findIndex (is_product (Hex id)) l = None -> id ∉ map product l.
Proof.
  intros H. apply findIndex_None in H as [Hall _].
  intros Hin. apply list_elem_of_fmap in Hin as (line & -> & Hin).
  rewrite Forall_forall in Hall. specialize (Hall _ Hin).
  by apply is_product_false in Hall.
Qed.

Lemma NoDup_map_product_delete (l : list CartItem) i :
  NoDup (map product l) -> NoDup (map product (delete i l)).
Proof.
  intros H. eapply sublist_NoDup; [exact H | apply (fmap_sublist product), sublist_delete].
Qed.

Lemma carts_unique_with_items user its w :
  carts_unique w -> NoDup (map product its) -> carts_unique (with_items user its w).
Proof.
  intros Hw Hits u c. unfold with_items. cbn [carts].
  destruct (decide (user = u)) as [->|Hne].
  - rewrite lookup_alter_eq. destruct (carts w !! u); [|discriminate].
    intros Hc. by inversion Hc; subst.
  - rewrite lookup_alter_ne by done. apply Hw.
Qed.

Lemma kept_lines_sublist ps (its : list CartItem) :
  map depopulate_item (List.filter validItem (map (populate_item ps) its)) `sublist_of` its.
Proof.
  induction its as [|[pid q pr] rest IH]; simpl; [constructor|].
  destruct (validItem _); simpl.
  - by apply sublist_skip.
  - by apply sublist_cons.
Qed.



(** X7: If no cart lists a product twice, that is still so after any of
    [updateCartItem], [removeFromCart], [clearCart], [getCart] and
    [createOrder], whatever they answer, and after [addToCart] unless its
    id is a string that casts to a product's id without being the string
    [toString] gives: such an id is never found in the cart, and
    [addToCart] then pushes a second line for a product the cart already
    has ([addToCart_other_spelling_appends]). *)
Theorem carts_unique_preserved w :
  carts_unique w ->
  (forall user productId qty,
     (forall id, productId <> Spelled id) ->
     carts_unique (after (addToCart user productId qty) w)) /\
  (forall user productId qty, carts_unique (after (updateCartItem user productId qty) w)) /\
  (forall user productId, carts_unique (after (removeFromCart user productId) w)) /\
  (forall user, carts_unique (after (clearCart user) w)) /\
  (forall user, carts_unique (after (getCart user) w)) /\
  (forall ok user sa pm, carts_unique (after (createOrder ok user sa pm) w)).
Proof.
  intros Hw. unfold after. repeat split.
  - intros user productId qty Hspell.
    destruct (addToCart_cases user productId qty w _ _ (surjective_pairing _))
      as [(_ & -> & _) | (_ & id & prod & Hid & _ & _ & _ & Hhow)]; [done|].
    destruct productId as [id'|id'|]; [|by destruct (Hspell id')|discriminate].
    cbn in Hid. inversion Hid; subst id'. clear Hid.
    destruct Hhow as [(c & i & line & Hc & Hi & Hl & _ & ->) | [(c & Hc & Hi & ->) | (Hc & ->)]].
    + apply carts_unique_with_items; [done|].
      rewrite (map_product_insert_same _ _ _ _ _ Hl). by apply (Hw user).
    + apply carts_unique_with_items; [done|].
      rewrite map_app. cbn. apply NoDup_app. split; [by apply (Hw user)|].
      split; [|apply NoDup_singleton].
      intros x Hx Hx'. apply list_elem_of_singleton in Hx'. subst x.
      by apply (not_in_cart _ _ Hi).
    + apply carts_unique_with_items.
      * intros u c. unfold with_new_cart. cbn [carts].
        destruct (decide (user = u)) as [->|Hne].
        -- rewrite lookup_insert_eq. intros Hc'. inversion Hc'; subst. constructor.
        -- rewrite lookup_insert_ne by done. apply Hw.
      * cbn. apply NoDup_singleton.
  - intros user productId qty.
    destruct (updateCartItem_cases user productId qty w _ _ (surjective_pairing _))
      as [(_ & -> & _) | (_ & c & i & line & prod & Hc & _ & Hl & _ & _ & ->)]; [done|].
    apply carts_unique_with_items; [done|].
    rewrite (map_product_insert_same _ _ _ _ _ Hl). by apply (Hw user).
  - intros user productId.
    destruct (removeFromCart_cases user productId w _ _ (surjective_pairing _))
      as [(_ & -> & _) | (_ & c & i & Hc & _ & ->)]; [done|].
    apply carts_unique_with_items; [done|].
    apply NoDup_map_product_delete. by apply (Hw user).
  - intros user.
    destruct (clearCart_cases user w _ _ (surjective_pairing _))
      as [(_ & -> & _) | (_ & c & Hc & ->)]; [done|].
    apply carts_unique_with_items; [done|constructor].
  - intros user. unfold asyncHandler, getCart.
    unfold bind at 1. unfold Cart_findOne_populated.
    destruct (carts w !! user) as [c|] eqn:Hc; cbn [fmap option_fmap option_map].
    + unfold bind at 1. unfold ret at 1. unfold populate_cart. cbn [pc_items pc_id pc_user].
      destruct (negb _); cbn; [|done].
      apply (carts_unique_with_items user _ w Hw).
      eapply sublist_NoDup; [by apply (Hw user c) | apply (fmap_sublist product)].
      apply kept_lines_sublist.
    + cbn. intros u c. cbn [carts]. destruct (decide (user = u)) as [->|Hne].
      * rewrite lookup_insert_eq. intros Hc'. inversion Hc'; subst. constructor.
      * rewrite lookup_insert_ne by done. apply Hw.
  - intros ok user sa pm. rewrite createOrder_run.
    destruct (carts w !! user) as [c|] eqn:Hc; [|done].
    destruct (items c); [done|].
    destruct (checkItems _ _ _) as [r|[ois total]]; [done|].
    destruct (ok _); [|done]. cbn [snd].
    apply (carts_unique_with_items user [] w Hw). constructor.
Qed.

Lemma carts_unique_preserved_witness :
  exists c,
    carts (after (addToCart 7%N (Hex 1%N) (JNumber 3)) (shop mug [mkCartItem 1%N 2 50])) !! 7%N
      = Some c /\
    NoDup (map product (items c)).
Proof.
  eexists. split; [reflexivity|].
  refine (proj1 (carts_unique_preserved (shop mug [mkCartItem 1%N 2 50]) _)
            7%N (Hex 1%N) (JNumber 3) _ 7%N _ eq_refl).
  - intros u c. unfold shop. cbn [carts]. destruct (decide (u = 7%N)) as [->|Hne].
    + rewrite lookup_singleton_eq. intros H. inversion H; subst. cbn.
      apply NoDup_singleton.
    + by rewrite lookup_singleton_ne.
  - discriminate.
Defined.

(** X25: An accepted [addToCart] whose id casts to a product's id without
    being the string [toString] gives always pushes a new line at the end
    of the cart, whether or not the cart has a line for that product
    already: the comparison [item.product.toString() === productId] never
    holds for it. *)
Theorem addToCart_other_spelling_appends user id qty w :
  is_status 201 (fst (asyncHandler (addToCart user (Spelled id) qty) w)) = true ->
  exists prod,
    products w !! id = Some prod /\
    stored_lines user (after (addToCart user (Spelled id) qty) w) =
      stored_lines user w ++ [mkCartItem id (to_number qty) (price prod)].
Proof.
  intros Hok. unfold after.
  destruct (addToCart_cases user (Spelled id) qty w _ _ (surjective_pairing _))
    as [(Hs & _) | (_ & id' & prod & Hid & Hp & Hact & Hq & Hhow)]; [congruence|].
  cbn in Hid. inversion Hid; subst id'. clear Hid.
  exists prod. split; [done|].
  destruct Hhow as [(c & i & line & Hc & Hi & _) | [(c & Hc & Hi & ->) | (Hc & ->)]].
  - by rewrite findIndex_Spelled in Hi.
  - rewrite (stored_lines_with_items _ _ _ _ Hc). unfold stored_lines. by rewrite Hc.
  - assert (carts (with_new_cart user w) !! user = Some (mkCart (next_id w) [])) as Hnew.
    { unfold with_new_cart. cbn. by rewrite lookup_insert_eq. }
    rewrite (stored_lines_with_items _ _ _ _ Hnew). unfold stored_lines. by rewrite Hc.
Qed.

(** A cart that holds two mugs is asked for one more under another
    spelling of the mug's id: it then lists the mug twice. *)
Lemma addToCart_other_spelling_appends_witness :
  exists prod,
    products (shop mug [mkCartItem 1%N 2 50]) !! 1%N = Some prod /\
    stored_lines 7%N
      (after (addToCart 7%N (Spelled 1%N) (JNumber 1)) (shop mug [mkCartItem 1%N 2 50])) =
      stored_lines 7%N (shop mug [mkCartItem 1%N 2 50])
        ++ [mkCartItem 1%N (to_number (JNumber 1)) (price prod)].
Proof. apply addToCart_other_spelling_appends. reflexivity. Defined.

(** ** Cart handlers, one after the other *)

Lemma findIndex_app_new {A} (f : A -> bool) (l : list A) y :
  findIndex f l = None -> f y = true -> findIndex f (l ++ [y]) = Some (length l).
Proof.
  induction l as [|a l IH]; intros Hi Hy; simpl in *; [by rewrite Hy|].
  destruct (f a); [discriminate|].
  destruct (findIndex f l); [discriminate|]. by rewrite IH.
Qed.

Lemma delete_app_last {A} (l : list A) y : delete (length l) (l ++ [y]) = l.
Proof. induction l as [|a l IH]; simpl; [done|]. by rewrite IH. Qed.

Lemma insert_app_last {A} (l : list A) x y : <[length l := y]> (l ++ [x]) = l ++ [y].
Proof. induction l as [|a l IH]; simpl; [done|]. by rewrite IH. Qed.

Lemma with_items_twice user its its' w :
  with_items user its' (with_items user its w) = with_items user its' w.
Proof.
  unfold with_items. cbn. f_equal.
  apply map_eq. intros u. destruct (decide (user = u)) as [->|Hne].
  - rewrite !lookup_alter_eq. by destruct (carts w !! u).
  - by rewrite !lookup_alter_ne.
Qed.

Lemma with_items_same user w c :
  carts w !! user = Some c -> with_items user (items c) w = w.
Proof.
  intros Hc. unfold with_items. rewrite (alter_set_items_id _ _ _ Hc). apply db_eta.
Qed.

Lemma carts_with_items user its w c :
  carts w !! user = Some c ->
  carts (with_items user its w) !! user = Some (mkCart (cart_id c) its).
Proof. intros Hc. unfold with_items. cbn. by rewrite lookup_alter_eq, Hc. Qed.

(** [addToCart] for a product that is in order and not yet in the cart. *)
Lemma addToCart_new_line user id qty w prod :
  products w !! id = Some prod -> isActive prod = true -> to_number qty <= stock prod ->
  line_for user (Hex id) w = None ->
  after (addToCart user (Hex id) qty) w =
    match carts w !! user with
    | Some c => with_items user (items c ++ [mkCartItem id (to_number qty) (price prod)]) w
    | None => with_items user [mkCartItem id (to_number qty) (price prod)]
                (with_new_cart user w)
    end.
Proof.
  intros Hp Hact Hq Hline. unfold after.
  destruct (addToCart_cases user (Hex id) qty w _ _ (surjective_pairing _))
    as [(_ & _ & Hwhy) | (_ & id' & prod' & Hid & Hp' & _ & _ & Hhow)].
  - exfalso. destruct Hwhy as [? | (id' & Hid & Hwhy)]; [discriminate|].
    cbn in Hid. inversion Hid; subst id'. clear Hid.
    destruct Hwhy as [? | (prod' & Hp' & Hwhy)]; [congruence|].
    rewrite Hp in Hp'. inversion Hp'; subst prod'.
    destruct Hwhy as [? | [? | (line & ? & _)]]; [congruence | lia | congruence].
  - cbn in Hid. inversion Hid; subst id'. clear Hid.
    rewrite Hp in Hp'. inversion Hp'; subst prod'. unfold line_for in Hline.
    destruct Hhow as [(c & i & line & Hc & Hi & _) | [(c & Hc & Hi & ->) | (Hc & ->)]].
    + rewrite Hc in Hline. apply find_findIndex in Hline. congruence.
    + by rewrite Hc.
    + by rewrite Hc.
Qed.

(** [addToCart] for a product that is in order and already in the cart. *)
Lemma addToCart_existing_line user id qty w prod c l q pr :
  products w !! id = Some prod -> isActive prod = true -> to_number qty <= stock prod ->
  carts w !! user = Some c ->
  items c = l ++ [mkCartItem id q pr] ->
  findIndex (is_product (Hex id)) l = None ->
  plus_quantity q qty <= stock prod ->
  after (addToCart user (Hex id) qty) w =
    with_items user (l ++ [mkCartItem id (plus_quantity q qty) (price prod)]) w.
Proof.
  intros Hp Hact Hq Hc Hits Hl Hsum. unfold after.
  assert (findIndex (is_product (Hex id)) (items c) = Some (length l)) as Hidx.
  { rewrite Hits. apply findIndex_app_new; [done|]. by apply is_product_true. }
  assert (items c !! length l = Some (mkCartItem id q pr)) as Hat.
  { rewrite Hits. by rewrite lookup_app_r, Nat.sub_diag by lia. }
  destruct (addToCart_cases user (Hex id) qty w _ _ (surjective_pairing _))
    as [(_ & _ & Hwhy) | (_ & id' & prod' & Hid & Hp' & _ & _ & Hhow)].
  - exfalso. destruct Hwhy as [? | (id' & Hid & Hwhy)]; [discriminate|].
    cbn in Hid. inversion Hid; subst id'. clear Hid.
    destruct Hwhy as [? | (prod' & Hp' & Hwhy)]; [congruence|].
    rewrite Hp in Hp'. inversion Hp'; subst prod'.
    destruct Hwhy as [? | [? | (line & Hline & ?)]]; [congruence | lia |].
    unfold line_for in Hline. rewrite Hc in Hline.
    apply findIndex_Some in Hidx as (x & Hx & _ & Hfind & _).
    rewrite Hfind in Hline. rewrite Hat in Hx. inversion Hx; subst x.
    inversion Hline; subst line. cbn in *. lia.
  - cbn in Hid. inversion Hid; subst id'. clear Hid.
    rewrite Hp in Hp'. inversion Hp'; subst prod'.
    destruct Hhow as [(c' & i & line & Hc' & Hi & Hli & _ & ->) | [(c' & Hc' & Hi & _) | (Hc' & _)]].
    + rewrite Hc in Hc'. inversion Hc'; subst c'.
      rewrite Hidx in Hi. inversion Hi; subst i.
      rewrite Hat in Hli. inversion Hli; subst line. cbn.
      by rewrite Hits, insert_app_last.
    + congruence.
    + congruence.
Qed.

(** X8: Adding a product that was not in the cart and removing it again,
    both under the id as [toString] gives it, puts the whole database back
    as it was. *)
Theorem addToCart_then_removeFromCart user id qty w c prod :
  carts w !! user = Some c ->
  line_for user (Hex id) w = None ->
  products w !! id = Some prod -> isActive prod = true -> to_number qty <= stock prod ->
  after (removeFromCart user (Hex id)) (after (addToCart user (Hex id) qty) w) = w.
Proof.
  intros Hc Hline Hp Hact Hq.
  rewrite (addToCart_new_line _ _ _ _ _ Hp Hact Hq Hline), Hc.
  set (new := mkCartItem id (to_number qty) (price prod)).
  assert (findIndex (is_product (Hex id)) (items c) = None) as Hnone.
  { unfold line_for in Hline. rewrite Hc in Hline. by apply find_findIndex. }
  pose proof (carts_with_items user (items c ++ [new]) w c Hc) as Hc1.
  unfold after.
  destruct (removeFromCart_cases user (Hex id) (with_items user (items c ++ [new]) w) _ _
              (surjective_pairing _)) as [(_ & _ & Hwhy) | (_ & c1 & i & Hc1' & Hi & ->)].
  - exfalso. rewrite (line_for_with_items _ _ _ _ _ Hc) in Hwhy.
    rewrite find_app_new in Hwhy; [done|done|]. by apply is_product_true.
  - rewrite Hc1 in Hc1'. inversion Hc1'; subst c1. cbn [items] in *.
    rewrite findIndex_app_new in Hi; [|done|by apply is_product_true].
    inversion Hi; subst i. rewrite delete_app_last, with_items_twice.
    by apply with_items_same.
Qed.

Lemma addToCart_then_removeFromCart_witness :
  after (removeFromCart 7%N (Hex 1%N)) (after (addToCart 7%N (Hex 1%N) (JNumber 2)) (shop mug []))
    = shop mug [].
Proof.
  apply (addToCart_then_removeFromCart 7%N 1%N (JNumber 2) (shop mug []) (mkCart 3%N []) mug);
    [reflexivity | reflexivity | reflexivity | reflexivity | cbn; lia].
Defined.

(** X9: Two [addToCart] of a product that was not in the cart, under the
    id as [toString] gives it and both within the stock, leave one line
    for it at the end of the cart.  Its quantity is what [+] makes of the
    first quantity and the second: their sum when the second is a number,
    the digits of the first followed by those of the second when it is a
    string. *)
Theorem addToCart_twice_accumulates user id q1 q2 w prod :
  products w !! id = Some prod -> isActive prod = true ->
  line_for user (Hex id) w = None ->
  to_number q1 <= stock prod -> to_number q2 <= stock prod ->
  plus_quantity (to_number q1) q2 <= stock prod ->
  stored_lines user
    (after (addToCart user (Hex id) q2) (after (addToCart user (Hex id) q1) w)) =
  stored_lines user w ++ [mkCartItem id (plus_quantity (to_number q1) q2) (price prod)].
Proof.
  intros Hp Hact Hline H1 H2 H12.
  rewrite (addToCart_new_line _ _ _ _ _ Hp Hact H1 Hline).
  unfold stored_lines at 2. unfold line_for in Hline.
  destruct (carts w !! user) as [c|] eqn:Hc.
  - apply find_findIndex in Hline.
    pose proof (carts_with_items user (items c ++ [mkCartItem id (to_number q1) (price prod)])
                  w c Hc) as Hc1.
    rewrite (addToCart_existing_line user id q2
               (with_items user (items c ++ [mkCartItem id (to_number q1) (price prod)]) w)
               prod _ (items c) (to_number q1) (price prod) Hp Hact H2 Hc1 eq_refl Hline H12).
    rewrite with_items_twice. by rewrite (stored_lines_with_items _ _ _ _ Hc).
  - assert (carts (with_new_cart user w) !! user = Some (mkCart (next_id w) [])) as Hnew.
    { unfold with_new_cart. cbn. by rewrite lookup_insert_eq. }
    pose proof (carts_with_items user [mkCartItem id (to_number q1) (price prod)] _ _ Hnew)
      as Hc1.
    rewrite (addToCart_existing_line user id q2
               (with_items user [mkCartItem id (to_number q1) (price prod)]
                  (with_new_cart user w))
               prod _ [] (to_number q1) (price prod) Hp Hact H2 Hc1 eq_refl eq_refl H12).
    rewrite with_items_twice. by rewrite (stored_lines_with_items _ _ _ _ Hnew).
Qed.

(** Two and then three of the five mugs: a line of five.  The same with
    the three sent as the string "3" asks for 23 and is refused; of thirty
    mugs it is accepted, and the line holds 23. *)
Lemma addToCart_twice_accumulates_witness :
  stored_lines 7%N
    (after (addToCart 7%N (Hex 1%N) (JNumber 3))
       (after (addToCart 7%N (Hex 1%N) (JNumber 2)) shop_no_cart)) =
    stored_lines 7%N shop_no_cart ++ [mkCartItem 1%N 5 (price mug)] /\
  is_status 201
    (fst (asyncHandler (addToCart 7%N (Hex 1%N) (JString 3))
            (after (addToCart 7%N (Hex 1%N) (JNumber 2)) shop_no_cart))) = false /\
  stored_lines 7%N
    (after (addToCart 7%N (Hex 1%N) (JString 3))
       (after (addToCart 7%N (Hex 1%N) (JNumber 2))
          (mkDb {[ 1%N := mkProduct "Mug" 50 30 ["mug.png"] true ]} ∅ ∅ 100%N))) =
    stored_lines 7%N (mkDb {[ 1%N := mkProduct "Mug" 50 30 ["mug.png"] true ]} ∅ ∅ 100%N)
      ++ [mkCartItem 1%N 23 50].
Proof.
  split; [|split].
  - apply (addToCart_twice_accumulates 7%N 1%N (JNumber 2) (JNumber 3) shop_no_cart mug);
      [reflexivity | reflexivity | reflexivity | cbn; lia | cbn; lia | cbn; lia].
  - reflexivity.
  - apply (addToCart_twice_accumulates 7%N 1%N (JNumber 2) (JString 3)
             (mkDb {[ 1%N := mkProduct "Mug" 50 30 ["mug.png"] true ]} ∅ ∅ 100%N)
             (mkProduct "Mug" 50 30 ["mug.png"] true));
      [reflexivity | reflexivity | reflexivity | cbn; lia | cbn; lia | vm_compute; discriminate].
Defined.

(** ** Carts and checkouts, one after the other *)

Lemma createOrder_on_emptied_cart ok user sa pm w c :
  carts w !! user = Some c ->
  asyncHandler (createOrder ok user sa pm) (with_items user [] w) =
    (Responded (fail400 "Cart is empty"), with_items user [] w).
Proof.
  intros Hc. rewrite createOrder_run. by rewrite (carts_with_items _ _ _ _ Hc).
Qed.

(** X10: A checkout right after [clearCart] is always refused with "Cart is
    empty" and writes nothing, whether or not the user had a cart. *)
Theorem clearCart_then_createOrder ok user sa pm w :
  asyncHandler (createOrder ok user sa pm) (after (clearCart user) w) =
    (Responded (fail400 "Cart is empty"), after (clearCart user) w).
Proof.
  unfold after.
  destruct (clearCart_cases user w _ _ (surjective_pairing _))
    as [(_ & -> & Hc) | (_ & c & Hc & ->)].
  - rewrite createOrder_run. by rewrite Hc.
  - by apply (createOrder_on_emptied_cart _ _ _ _ _ c).
Qed.

(** X11: After a checkout that went through, a second checkout by the same
    user is refused with "Cart is empty" and writes nothing: no second
    order, no second decrement. *)
Theorem createOrder_twice_refused ok ok' user sa pm sa' pm' w out w' :
  asyncHandler (createOrder ok user sa pm) w = (out, w') ->
  is_success out = true ->
  asyncHandler (createOrder ok' user sa' pm') w' = (Responded (fail400 "Cart is empty"), w').
Proof.
  intros Hrun Hs. rewrite createOrder_run in Hrun.
  destruct (carts w !! user) as [c|] eqn:Hc; [|by inversion Hrun; subst].
  destruct (items c); [by inversion Hrun; subst|].
  destruct (checkItems _ _ _) as [r|[ois total]] eqn:Hchk.
  { apply checkItems_inl in Hchk as (? & _ & ->). by inversion Hrun; subst. }
  destruct (ok _); [|by inversion Hrun; subst].
  inversion Hrun; subst. rewrite createOrder_run. unfold db_after_checkout. cbn [carts].
  by rewrite lookup_alter_eq, Hc.
Qed.

Lemma createOrder_twice_refused_witness :
  asyncHandler (createOrder accept_all 7%N anAddress "stripe")
    (after (createOrder accept_all 7%N anAddress "paypal") (shop mug [mkCartItem 1%N 2 50])) =
    (Responded (fail400 "Cart is empty"),
     after (createOrder accept_all 7%N anAddress "paypal") (shop mug [mkCartItem 1%N 2 50])).
Proof.
  apply (createOrder_twice_refused accept_all accept_all 7%N anAddress "paypal" anAddress
           "stripe" (shop mug [mkCartItem 1%N 2 50]) _ _ (surjective_pairing _)).
  reflexivity.
Defined.

Lemma populate_kept ps (its : list CartItem) :
  map (populate_item ps)
    (map depopulate_item (List.filter validItem (map (populate_item ps) its))) =
  List.filter validItem (map (populate_item ps) its).
Proof.
  induction its as [|[pid q pr] rest IH]; simpl; [done|].
  destruct (validItem _) eqn:Hv; simpl; [|done]. by rewrite IH.
Qed.

Lemma filter_filter {A} (f : A -> bool) (l : list A) :
  List.filter f (List.filter f l) = List.filter f l.
Proof.
  induction l as [|a l IH]; simpl; [done|].
  destruct (f a) eqn:Hfa; simpl; [|done]. by rewrite Hfa, IH.
Qed.

(** What [getCart] answers and leaves behind. *)
Lemma getCart_run user w :
  asyncHandler (getCart user) w =
    match carts w !! user with
    | None =>
        (Responded (mkResponse 200 true None (Some (mkPopulatedCart (next_id w) user []))),
         with_new_cart user w)
    | Some c =>
        let kept := List.filter validItem (map (populate_item (products w)) (items c)) in
        (Responded (mkResponse 200 true None (Some (mkPopulatedCart (cart_id c) user kept))),
         if (length kept =? length (items c))%nat then w
         else with_items user (map depopulate_item kept) w)
    end.
Proof.
  unfold asyncHandler, getCart.
  unfold bind at 1. unfold Cart_findOne_populated.
  destruct (carts w !! user) as [c|] eqn:Hc; cbn [fmap option_fmap option_map]; [|done].
  unfold bind at 1. unfold ret at 1. unfold populate_cart. cbn [pc_items pc_id pc_user].
  rewrite length_map.
  destruct (length _ =? length (items c))%nat eqn:Hlen; cbn; [|done].
  apply Nat.eqb_eq in Hlen. rewrite <- (length_map (populate_item (products w))) in Hlen.
  apply filter_length_eq in Hlen. by rewrite Hlen.
Qed.

(** X12: Reading the cart a second time answers the same and writes nothing. *)
Theorem getCart_idempotent user w :
  asyncHandler (getCart user) (after (getCart user) w) =
    (fst (asyncHandler (getCart user) w), after (getCart user) w).
Proof.
  unfold after. rewrite (getCart_run user w).
  destruct (carts w !! user) as [c|] eqn:Hc.
  - cbn zeta. cbn [fst snd].
    set (kept := List.filter validItem (map (populate_item (products w)) (items c))).
    destruct (length kept =? length (items c))%nat eqn:Hlen.
    + rewrite getCart_run, Hc. cbn zeta. fold kept. by rewrite Hlen.
    + rewrite getCart_run, (carts_with_items _ _ _ _ Hc). cbn zeta.
      cbn [items cart_id]. change (products (with_items _ _ w)) with (products w).
      unfold kept. rewrite populate_kept, filter_filter. fold kept.
      by rewrite length_map, Nat.eqb_refl.
  - cbn [fst snd]. rewrite getCart_run. unfold with_new_cart at 1. cbn [carts].
    rewrite lookup_insert_eq. cbn. reflexivity.
Qed.

(** X13: [getCart] does not look at [isActive]: a line whose product exists
    and has the stock stays in the cart even when the product has been
    retired, and the checkout will refuse it.  When every product of the
    cart is active, the lines [getCart] leaves are all accepted by the
    validation loop of the checkout. *)
Theorem getCart_then_validation user w :
  (forall line p,
     line ∈ lines_of user w -> p_product line = Some p ->
     0 < stock p -> p_quantity line <= stock p ->
     line ∈ lines_of user (after (getCart user) w)) /\
  ((forall line p, line ∈ lines_of user w -> p_product line = Some p -> isActive p = true) ->
   Forall (fun line => line_ok line = true) (lines_of user (after (getCart user) w))).
Proof.
  assert (lines_of user (after (getCart user) w) =
          List.filter validItem (lines_of user w)) as Hlines.
  { unfold after. rewrite getCart_run. unfold lines_of at 2.
    destruct (carts w !! user) as [c|] eqn:Hc.
    - cbn zeta. cbn [snd].
      destruct (length _ =? length (items c))%nat eqn:Hlen.
      + unfold lines_of. rewrite Hc.
        apply Nat.eqb_eq in Hlen.
        rewrite <- (length_map (populate_item (products w))) in Hlen.
        by apply filter_length_eq in Hlen.
      + unfold lines_of. rewrite (carts_with_items _ _ _ _ Hc). cbn [items].
        change (products (with_items _ _ w)) with (products w). apply populate_kept.
    - cbn [snd]. unfold lines_of, with_new_cart. cbn [carts]. by rewrite lookup_insert_eq. }
  rewrite Hlines. split.
  - intros line p Hin Hp Hs Hq. apply list_elem_of_In, filter_In.
    split; [by apply list_elem_of_In|]. apply validItem_spec. by exists p.
  - intros Hact. apply Forall_forall. intros line Hin.
    apply list_elem_of_In, filter_In in Hin as [Hin Hv].
    apply validItem_spec in Hv as (p & Hp & Hs & Hq).
    apply list_elem_of_In in Hin.
    unfold line_ok. rewrite Hp, (Hact line p Hin Hp). cbn.
    apply negb_true_iff, Z.ltb_ge. lia.
Qed.

Lemma getCart_then_validation_witness :
  mkPopulatedItem (Some retiredMug) 1%N 2 50
    ∈ lines_of 7%N (after (getCart 7%N) (shop retiredMug [mkCartItem 1%N 2 50])) /\
  Forall (fun line => line_ok line = true)
    (lines_of 7%N (after (getCart 7%N) (shop mug [mkCartItem 1%N 2 50; mkCartItem 1%N 9 50]))).
Proof.
  split.
  - apply (proj1 (getCart_then_validation 7%N (shop retiredMug [mkCartItem 1%N 2 50]))
             _ retiredMug); [|reflexivity|cbn; lia|cbn; lia].
    apply list_elem_of_singleton. reflexivity.
  - apply (proj2 (getCart_then_validation 7%N
                    (shop mug [mkCartItem 1%N 2 50; mkCartItem 1%N 9 50]))).
    intros line p Hin Hp.
    change (lines_of 7%N (shop mug [mkCartItem 1%N 2 50; mkCartItem 1%N 9 50]))
      with [mkPopulatedItem (Some mug) 1%N 2 50; mkPopulatedItem (Some mug) 1%N 9 50] in Hin.
    apply elem_of_cons in Hin as [-> | Hin].
    + cbn in Hp. by inversion Hp.
    + apply list_elem_of_singleton in Hin. subst line. cbn in Hp. by inversion Hp.
Defined.

(** ** Order handlers: what they leave alone *)

Ltac run_order_handler :=
  unfold after, asyncHandler, updateOrderToPaid, updateOrderToDelivered, updateOrderStatus,
    bind, Order_findById, Order_save, ret.

(** The order a status handler writes back, when it writes. *)
Lemma updateOrderToPaid_run id user role pr now w :
  asyncHandler (updateOrderToPaid id user role pr now) w =
    match orders w !! id with
    | None => (Responded (fail404 "Order not found"), w)
    | Some o =>
        if isPaid o then (Responded (fail400 "Order is already paid"), w)
        else if negb (bool_decide (od_user (order_data o) = user))
                && negb (bool_decide (role = "admin"))
        then (Responded (fail403 "Not authorized to update this order"), w)
        else
          let o' := mkOrder (order_data o) "processing" true (Some now)
                      (match pr with Some r => Some r | None => paymentResult o end)
                      (isDelivered o) (deliveredAt o) in
          (Responded (mkResponse 200 true (Some "Order updated to paid") (Some o')),
           mkDb (products w) (carts w) (<[id := o']> (orders w)) (next_id w))
    end.
Proof.
  run_order_handler. destruct (orders w !! id) as [o|]; [|done].
  destruct (isPaid o); [done|]. by destruct (_ && _).
Qed.

Lemma updateOrderToDelivered_run id now w :
  asyncHandler (updateOrderToDelivered id now) w =
    match orders w !! id with
    | None => (Responded (fail404 "Order not found"), w)
    | Some o =>
        if isDelivered o then (Responded (fail400 "Order is already delivered"), w)
        else
          let o' := mkOrder (order_data o) "delivered" (isPaid o) (paidAt o)
                      (paymentResult o) true (Some now) in
          (Responded (mkResponse 200 true (Some "Order updated to delivered") (Some o')),
           mkDb (products w) (carts w) (<[id := o']> (orders w)) (next_id w))
    end.
Proof.
  run_order_handler. destruct (orders w !! id) as [o|]; [|done].
  by destruct (isDelivered o).
Qed.

Lemma updateOrderStatus_run id s now w :
  asyncHandler (updateOrderStatus id s now) w =
    if bool_decide (s ∈ validStatuses) then
      match orders w !! id with
      | None => (Responded (fail404 "Order not found"), w)
      | Some o =>
          let o' := if bool_decide (s = "delivered")
                    then mkOrder (order_data o) s (isPaid o) (paidAt o) (paymentResult o)
                           true (Some now)
                    else mkOrder (order_data o) s (isPaid o) (paidAt o) (paymentResult o)
                           (isDelivered o) (deliveredAt o) in
          (Responded (mkResponse 200 true (Some "Order status updated successfully")
                        (Some o')),
           mkDb (products w) (carts w) (<[id := o']> (orders w)) (next_id w))
      end
    else (Responded (fail400 "Invalid status. Valid statuses: pending, processing, shipped, delivered, cancelled"), w).
Proof.
  run_order_handler. destruct (bool_decide (s ∈ validStatuses)); cbn [negb]; [|done].
  by destruct (orders w !! id) as [o|].
Qed.

(** What one step does to the orders: nothing, or one order [o] replaced
    by [o']. *)
Lemma order_step_inv w w' :
  order_step w w' ->
  w' = w \/
  exists id o o',
    orders w !! id = Some o /\
    w' = mkDb (products w) (carts w) (<[id := o']> (orders w)) (next_id w) /\
    order_data o' = order_data o /\
    (isPaid o = true -> isPaid o' = true /\ paidAt o' = paidAt o) /\
    (isDelivered o = true -> isDelivered o' = true) /\
    (order_consistent o -> order_consistent o').
Proof.
  intros [id user role pr now w0 | id now w0 | id s now w0]; unfold after.
  - rewrite updateOrderToPaid_run.
    destruct (orders w0 !! id) as [o|] eqn:Ho; [|by left].
    destruct (isPaid o) eqn:Hp; [by left|].
    destruct (_ && _); [by left|]. right. cbn zeta. cbn [snd].
    eexists id, o, _. split; [done|]. split; [reflexivity|].
    unfold order_consistent. cbn.
    repeat split; intros; first [done | congruence | tauto].
  - rewrite updateOrderToDelivered_run.
    destruct (orders w0 !! id) as [o|] eqn:Ho; [|by left].
    destruct (isDelivered o) eqn:Hd; [by left|]. right. cbn zeta. cbn [snd].
    eexists id, o, _. split; [done|]. split; [reflexivity|].
    unfold order_consistent. cbn.
    repeat split; intros; first [done | congruence | tauto].
  - rewrite updateOrderStatus_run.
    destruct (bool_decide (s ∈ validStatuses)); [|by left].
    destruct (orders w0 !! id) as [o|] eqn:Ho; [|by left]. right. cbn zeta. cbn [snd].
    eexists id, o, _. split; [done|]. split; [reflexivity|].
    unfold order_consistent.
    case_bool_decide as Hs; cbn;
      repeat split; intros; first [done | congruence | tauto].
Qed.

(** X14: However many times [updateOrderToPaid], [updateOrderToDelivered] and
    [updateOrderStatus] are called, by whomever and with whatever
    arguments, no order is created or removed and no order's data (owner,
    lines, address, payment method, the four prices) changes; products,
    carts and the id counter are not touched. *)
Theorem order_admin_keeps_order_data w w' :
  rtc order_step w w' ->
  products w' = products w /\ carts w' = carts w /\ next_id w' = next_id w /\
  forall id, order_data <$> orders w' !! id = order_data <$> orders w !! id.
Proof.
  induction 1 as [w|w w1 w2 Hstep _ IH]; [done|].
  destruct IH as (Hp & Hc & Hn & Ho).
  destruct (order_step_inv _ _ Hstep) as [-> | (id & o & o' & Hid & -> & Hd & _)]; [done|].
  cbn in *. repeat split; try done.
  intros id'. rewrite Ho. destruct (decide (id = id')) as [->|Hne].
  - by rewrite lookup_insert_eq, Hid; cbn; rewrite Hd.
  - by rewrite lookup_insert_ne.
Qed.

Lemma order_admin_keeps_order_data_witness :
  order_data <$> orders (after (updateOrderStatus 5%N "pending" 9)
                           (after (updateOrderToDelivered 5%N 8) (order_book pendingOrder)))
                 !! 5%N
  = order_data <$> orders (order_book pendingOrder) !! 5%N.
Proof.
  refine (proj2 (proj2 (proj2 (order_admin_keeps_order_data (order_book pendingOrder) _ _)))
            5%N).
  eapply rtc_l; [apply (step_delivered 5%N 8)|].
  eapply rtc_l; [apply (step_status 5%N "pending" 9)|]. apply rtc_refl.
Defined.

(** X15: Payment and delivery are never undone: once an order is paid it stays
    paid with the same [paidAt], and once its [isDelivered] is true it
    stays true, through any number of calls of the three handlers, even
    those that set its status back. *)
Theorem order_flags_never_reset w w' id o :
  rtc order_step w w' ->
  orders w !! id = Some o ->
  exists o',
    orders w' !! id = Some o' /\
    (isPaid o = true -> isPaid o' = true /\ paidAt o' = paidAt o) /\
    (isDelivered o = true -> isDelivered o' = true).
Proof.
  intros Hsteps. revert o. induction Hsteps as [w|w w1 w2 Hstep _ IH]; intros o Ho.
  - by exists o.
  - destruct (order_step_inv _ _ Hstep) as [-> | (id1 & o1 & o1' & Hid & -> & _ & Hp & Hd & _)];
      [by apply IH|].
    destruct (decide (id1 = id)) as [->|Hne].
    + rewrite Ho in Hid. inversion Hid; subst o1.
      destruct (IH o1') as (o' & Ho' & Hp' & Hd'); [cbn; by rewrite lookup_insert_eq|].
      exists o'. split; [done|]. split.
      * intros Hpaid. destruct (Hp Hpaid) as [Hp1 Hp2].
        destruct (Hp' Hp1) as [? ?]. split; congruence.
      * intros Hdel. by apply Hd', Hd.
    + apply IH. cbn. by rewrite lookup_insert_ne.
Qed.

Lemma order_flags_never_reset_witness :
  exists o',
    orders (after (updateOrderStatus 5%N "pending" 9)
              (after (updateOrderToPaid 5%N 7%N "user" None 8) (order_book deliveredOrder)))
      !! 5%N = Some o' /\
    (isPaid deliveredOrder = true ->
     isPaid o' = true /\ paidAt o' = paidAt deliveredOrder) /\
    (isDelivered deliveredOrder = true -> isDelivered o' = true).
Proof.
  apply (order_flags_never_reset (order_book deliveredOrder)); [|reflexivity].
  eapply rtc_l; [apply (step_paid 5%N 7%N "user" None 8)|].
  eapply rtc_l; [apply (step_status 5%N "pending" 9)|]. apply rtc_refl.
Defined.

(** X16: If every stored order has a [paidAt] when it is paid, a [deliveredAt]
    when its [isDelivered] is true, and [isDelivered] true when its status
    is "delivered", then this is still so after any number of calls of the
    three handlers. *)
Theorem order_consistency_preserved w w' :
  rtc order_step w w' ->
  (forall id o, orders w !! id = Some o -> order_consistent o) ->
  forall id o, orders w' !! id = Some o -> order_consistent o.
Proof.
  induction 1 as [w|w w1 w2 Hstep _ IH]; intros Hw; [done|].
  apply IH.
  destruct (order_step_inv _ _ Hstep) as [-> | (id1 & o1 & o1' & Hid & -> & _ & _ & _ & Hc)];
    [done|].
  intros id o. cbn. destruct (decide (id1 = id)) as [->|Hne].
  - rewrite lookup_insert_eq. intros Ho. inversion Ho; subst. by apply Hc, (Hw id).
  - rewrite lookup_insert_ne by done. apply Hw.
Qed.

Lemma order_consistency_preserved_witness :
  exists o,
    orders (after (updateOrderStatus 5%N "delivered" 9)
              (after (updateOrderToPaid 5%N 7%N "user" None 8) (order_book pendingOrder)))
      !! 5%N = Some o /\
    status o = "delivered" /\ isPaid o = true /\
    ((isPaid o = true -> paidAt o <> None) /\
     (isDelivered o = true -> deliveredAt o <> None) /\
     (status o = "delivered" -> isDelivered o = true)).
Proof.
  eexists. split; [reflexivity|]. split; [reflexivity|]. split; [reflexivity|].
  refine (order_consistency_preserved (order_book pendingOrder)
            (after (updateOrderStatus 5%N "delivered" 9)
               (after (updateOrderToPaid 5%N 7%N "user" None 8) (order_book pendingOrder)))
            _ _ 5%N _ eq_refl).
  - eapply rtc_l; [apply (step_paid 5%N 7%N "user" None 8)|].
    eapply rtc_l; [apply (step_status 5%N "delivered" 9)|]. apply rtc_refl.
  - intros id o. unfold order_book. cbn [orders].
    destruct (decide (id = 5%N)) as [->|Hne].
    + rewrite lookup_singleton_eq. intros H. inversion H; subst.
      unfold order_consistent, pendingOrder, new_order. cbn.
      split; [discriminate|]. split; discriminate.
    + by rewrite lookup_singleton_ne.
Defined.

(** X17: [updateOrderToPaid] writes nothing and never answers 200 for a caller
    who is neither the order's owner nor an admin; and what it answers to
    such a caller still tells whether the order exists and whether it is
    paid, because that is checked first. *)
Theorem updateOrderToPaid_needs_owner_or_admin id user role pr now w :
  (forall o, orders w !! id = Some o -> od_user (order_data o) <> user) ->
  role <> "admin" ->
  after (updateOrderToPaid id user role pr now) w = w /\
  fst (asyncHandler (updateOrderToPaid id user role pr now) w) =
    match orders w !! id with
    | None => Responded (fail404 "Order not found")
    | Some o =>
        if isPaid o then Responded (fail400 "Order is already paid")
        else Responded (fail403 "Not authorized to update this order")
    end.
Proof.
  intros Howner Hrole. unfold after. rewrite updateOrderToPaid_run.
  destruct (orders w !! id) as [o|] eqn:Ho; [|done].
  destruct (isPaid o); [done|].
  rewrite (bool_decide_eq_false_2 _ (Howner o eq_refl)).
  by rewrite (bool_decide_eq_false_2 _ Hrole).
Qed.

Lemma updateOrderToPaid_needs_owner_or_admin_witness :
  after (updateOrderToPaid 5%N 8%N "user" None 9) (order_book pendingOrder)
    = order_book pendingOrder /\
  fst (asyncHandler (updateOrderToPaid 5%N 8%N "user" None 9) (order_book pendingOrder)) =
    match orders (order_book pendingOrder) !! 5%N with
    | None => Responded (fail404 "Order not found")
    | Some o =>
        if isPaid o then Responded (fail400 "Order is already paid")
        else Responded (fail403 "Not authorized to update this order")
    end.
Proof.
  apply updateOrderToPaid_needs_owner_or_admin.
  - intros o Ho. change (orders (order_book pendingOrder) !! 5%N) with (Some pendingOrder) in Ho.
    inversion Ho; subst. cbn. discriminate.
  - discriminate.
Defined.

(** X18: Payment and delivery are recorded once: after an accepted
    [updateOrderToPaid], every further one for that order, by anyone, is
    refused with "Order is already paid" and writes nothing; after an
    accepted [updateOrderToDelivered], or an [updateOrderStatus] to
    "delivered", every further [updateOrderToDelivered] is refused with
    "Order is already delivered" and writes nothing. *)
Theorem payment_and_delivery_recorded_once id w :
  (forall user role pr now user' role' pr' now',
     is_status 200 (fst (asyncHandler (updateOrderToPaid id user role pr now) w)) = true ->
     asyncHandler (updateOrderToPaid id user' role' pr' now')
       (after (updateOrderToPaid id user role pr now) w) =
       (Responded (fail400 "Order is already paid"),
        after (updateOrderToPaid id user role pr now) w)) /\
  (forall now now',
     is_status 200 (fst (asyncHandler (updateOrderToDelivered id now) w)) = true ->
     asyncHandler (updateOrderToDelivered id now')
       (after (updateOrderToDelivered id now) w) =
       (Responded (fail400 "Order is already delivered"),
        after (updateOrderToDelivered id now) w)) /\
  (forall now now',
     is_status 200 (fst (asyncHandler (updateOrderStatus id "delivered" now) w)) = true ->
     asyncHandler (updateOrderToDelivered id now')
       (after (updateOrderStatus id "delivered" now) w) =
       (Responded (fail400 "Order is already delivered"),
        after (updateOrderStatus id "delivered" now) w)).
Proof.
  unfold after. repeat split.
  - intros user role pr now user' role' pr' now'. rewrite (updateOrderToPaid_run id user).
    destruct (orders w !! id) as [o|]; [|discriminate].
    destruct (isPaid o); [discriminate|]. destruct (_ && _); [discriminate|].
    intros _. cbn zeta. cbn [snd]. rewrite updateOrderToPaid_run. cbn [orders].
    by rewrite lookup_insert_eq.
  - intros now now'. rewrite (updateOrderToDelivered_run id now).
    destruct (orders w !! id) as [o|]; [|discriminate].
    destruct (isDelivered o); [discriminate|].
    intros _. cbn zeta. cbn [snd]. rewrite updateOrderToDelivered_run. cbn [orders].
    by rewrite lookup_insert_eq.
  - intros now now'. rewrite updateOrderStatus_run.
    destruct (bool_decide ("delivered" ∈ validStatuses)); [|discriminate].
    destruct (orders w !! id) as [o|]; [|discriminate].
    intros _. cbn zeta. cbn [snd]. rewrite updateOrderToDelivered_run. cbn [orders].
    rewrite lookup_insert_eq. by rewrite bool_decide_eq_true_2.
Qed.

Lemma payment_and_delivery_recorded_once_witness :
  asyncHandler (updateOrderToPaid 5%N 1%N "admin" None 12)
    (after (updateOrderToPaid 5%N 7%N "user" None 8) (order_book pendingOrder)) =
    (Responded (fail400 "Order is already paid"),
     after (updateOrderToPaid 5%N 7%N "user" None 8) (order_book pendingOrder)).
Proof.
  apply (proj1 (payment_and_delivery_recorded_once 5%N (order_book pendingOrder))
           7%N "user" None 8 1%N "admin" None 12).
  reflexivity.
Defined.

(** ** The slug *)

Ltac each_char c :=
  destruct c as [[] [] [] [] [] [] [] []]; try reflexivity; try discriminate.

Lemma slug_char_made c :
  is_slug_char (if is_lower (toLowerCase_char c) || is_upper (toLowerCase_char c)
                   || is_digit (toLowerCase_char c)
                then toLowerCase_char c else dash) = true.
Proof. each_char c. Qed.

Lemma slug_char_lower c : is_slug_char c = true -> toLowerCase_char c = c.
Proof. each_char c. Qed.

Lemma slug_char_kept c :
  is_slug_char c = true -> (if is_lower c || is_upper c || is_digit c then c else dash) = c.
Proof. each_char c. Qed.

Lemma alnum_lower c : is_alnum (toLowerCase_char c) = is_alnum c.
Proof. each_char c. Qed.

Lemma alnum_not_dash c : is_alnum c = true -> Ascii.eqb c dash = false.
Proof. each_char c. Qed.

Lemma alnum_replaced c :
  is_alnum (if is_lower c || is_upper c || is_digit c then c else dash) = is_alnum c.
Proof. each_char c. Qed.

Lemma eqb_dash c : Ascii.eqb c dash = true -> c = dash.
Proof. apply Ascii.eqb_eq. Qed.

Lemma made_slug_chars s :
  string_forall is_slug_char (replace_non_alnum (toLowerCase s)) = true.
Proof.
  induction s as [|c rest IH]; [done|]. cbn [toLowerCase replace_non_alnum string_forall].
  by rewrite slug_char_made, IH.
Qed.

Lemma collapse_forall f s :
  string_forall f s = true -> string_forall f (collapse_dashes s) = true.
Proof.
  induction s as [|c rest IH]; [done|]. cbn [string_forall collapse_dashes].
  intros H. apply andb_true_iff in H as [Hc Hrest].
  destruct (Ascii.eqb c dash) eqn:Hd.
  - apply eqb_dash in Hd. subst c. destruct rest as [|c' r]; [by cbn; rewrite Hc|].
    destruct (Ascii.eqb c' dash); [by apply IH|].
    cbn [string_forall]. by rewrite Hc, IH.
  - cbn [string_forall]. by rewrite Hc, IH.
Qed.

Lemma collapse_starts s : starts_with_dash (collapse_dashes s) = starts_with_dash s.
Proof.
  induction s as [|c rest IH]; [done|]. cbn [collapse_dashes starts_with_dash].
  destruct (Ascii.eqb c dash) eqn:Hd; [|by cbn; rewrite Hd].
  destruct rest as [|c' r]; [done|].
  destruct (Ascii.eqb c' dash) eqn:Hd'; [|done].
  rewrite IH. cbn. by rewrite Hd'.
Qed.

Lemma collapse_no_double s : has_double_dash (collapse_dashes s) = false.
Proof.
  induction s as [|c rest IH]; [done|]. cbn [collapse_dashes].
  destruct (Ascii.eqb c dash) eqn:Hd.
  - destruct rest as [|c' r]; [done|].
    destruct (Ascii.eqb c' dash) eqn:Hd'; [done|].
    cbn [has_double_dash]. rewrite IH, collapse_starts. cbn. by rewrite Hd'.
  - cbn [has_double_dash]. by rewrite Hd, IH.
Qed.

Lemma strip_leading_forall f s :
  string_forall f s = true -> string_forall f (strip_leading_dash s) = true.
Proof.
  destruct s as [|c rest]; [done|]. cbn.
  intros H. destruct (Ascii.eqb c dash); [|done]. by apply andb_true_iff in H as [_ ?].
Qed.

Lemma strip_leading_shape s :
  has_double_dash s = false ->
  has_double_dash (strip_leading_dash s) = false /\
  starts_with_dash (strip_leading_dash s) = false.
Proof.
  destruct s as [|c rest]; [done|]. cbn.
  intros H. apply orb_false_iff in H as [H1 H2].
  destruct (Ascii.eqb c dash) eqn:Hd; cbn in *.
  - done.
  - by rewrite Hd, H2.
Qed.

Lemma strip_trailing_forall f s :
  string_forall f s = true -> string_forall f (strip_trailing_dash s) = true.
Proof.
  induction s as [|c rest IH]; [done|]. cbn [string_forall].
  intros H. apply andb_true_iff in H as [Hc Hrest].
  destruct rest as [|c' r].
  - cbn. destruct (Ascii.eqb c dash); [done|]. cbn. by rewrite Hc.
  - change (strip_trailing_dash (String c (String c' r)))
      with (String c (strip_trailing_dash (String c' r))).
    cbn [string_forall]. by rewrite Hc, IH.
Qed.

Lemma strip_trailing_starts s :
  starts_with_dash s = false -> starts_with_dash (strip_trailing_dash s) = false.
Proof.
  destruct s as [|c rest]; [done|]. cbn [starts_with_dash]. intros Hd.
  destruct rest as [|c' r]; [by cbn; rewrite Hd|].
  change (strip_trailing_dash (String c (String c' r)))
    with (String c (strip_trailing_dash (String c' r))). done.
Qed.

Lemma strip_trailing_starts_le s :
  starts_with_dash (strip_trailing_dash s) = true -> starts_with_dash s = true.
Proof.
  intros H. destruct (starts_with_dash s) eqn:E; [done|].
  by rewrite strip_trailing_starts in H.
Qed.

Lemma strip_trailing_shape s :
  has_double_dash s = false ->
  has_double_dash (strip_trailing_dash s) = false /\
  ends_with_dash (strip_trailing_dash s) = false.
Proof.
  induction s as [|c rest IH]; [done|]. cbn [has_double_dash].
  intros H. apply orb_false_iff in H as [H1 H2].
  destruct rest as [|c' r].
  - cbn. destruct (Ascii.eqb c dash) eqn:Hd; [done|]. cbn. by rewrite Hd.
  - change (strip_trailing_dash (String c (String c' r)))
      with (String c (strip_trailing_dash (String c' r))).
    destruct (IH H2) as [IH1 IH2]. cbn [has_double_dash]. rewrite IH1, orb_false_r.
    split.
    + destruct (Ascii.eqb c dash) eqn:Hd; [|done]. cbn [andb].
      destruct (starts_with_dash (strip_trailing_dash (String c' r))) eqn:E; [|done].
      apply strip_trailing_starts_le in E. cbn [andb] in H1. congruence.
    + destruct (strip_trailing_dash (String c' r)) as [|d t] eqn:E.
      * cbn. destruct r as [|c'' r'].
        -- cbn in E. destruct (Ascii.eqb c' dash) eqn:Hd'; [|discriminate].
           cbn in H1. rewrite Hd' in H1. by destruct (Ascii.eqb c dash).
        -- discriminate.
      * done.
Qed.

Lemma slug_chars_lower s :
  string_forall is_slug_char s = true -> toLowerCase s = s.
Proof.
  induction s as [|c rest IH]; [done|]. cbn. intros H.
  apply andb_true_iff in H as [Hc Hrest]. by rewrite slug_char_lower, IH.
Qed.

Lemma slug_chars_kept s :
  string_forall is_slug_char s = true -> replace_non_alnum s = s.
Proof.
  induction s as [|c rest IH]; [done|]. cbn. intros H.
  apply andb_true_iff in H as [Hc Hrest]. by rewrite slug_char_kept, IH.
Qed.

Lemma no_double_collapse s : has_double_dash s = false -> collapse_dashes s = s.
Proof.
  induction s as [|c rest IH]; [done|]. cbn [has_double_dash collapse_dashes].
  intros H. apply orb_false_iff in H as [H1 H2].
  destruct (Ascii.eqb c dash) eqn:Hd.
  - apply eqb_dash in Hd as ->. destruct rest as [|c' r]; [done|].
    cbn in H1. rewrite H1. by rewrite IH.
  - by rewrite IH.
Qed.

Lemma no_leading_strip s : starts_with_dash s = false -> strip_leading_dash s = s.
Proof. destruct s as [|c rest]; [done|]. cbn. by intros ->. Qed.

Lemma no_trailing_strip s : ends_with_dash s = false -> strip_trailing_dash s = s.
Proof.
  induction s as [|c rest IH]; [done|]. destruct rest as [|c' r].
  - cbn. by intros ->.
  - intros H. change (strip_trailing_dash (String c (String c' r)))
      with (String c (strip_trailing_dash (String c' r))).
    by rewrite IH.
Qed.

Lemma filter_alnum_lower s :
  string_filter is_alnum (toLowerCase s) = toLowerCase (string_filter is_alnum s).
Proof.
  induction s as [|c rest IH]; [done|]. cbn. rewrite alnum_lower.
  destruct (is_alnum c); cbn; by rewrite IH.
Qed.

Lemma filter_alnum_replaced s :
  string_filter is_alnum (replace_non_alnum s) = string_filter is_alnum s.
Proof.
  induction s as [|c rest IH]; [done|]. cbn [replace_non_alnum string_filter].
  rewrite alnum_replaced, IH. unfold is_alnum.
  by destruct (is_lower c || is_upper c || is_digit c).
Qed.

Lemma filter_alnum_dash c s :
  Ascii.eqb c dash = true ->
  string_filter is_alnum (String c s) = string_filter is_alnum s.
Proof. intros H. apply eqb_dash in H as ->. reflexivity. Qed.

Lemma filter_alnum_collapse s :
  string_filter is_alnum (collapse_dashes s) = string_filter is_alnum s.
Proof.
  induction s as [|c rest IH]; [done|]. cbn [collapse_dashes].
  destruct (Ascii.eqb c dash) eqn:Hd.
  - rewrite (filter_alnum_dash c rest Hd). destruct rest as [|c' r]; [by apply eqb_dash in Hd as ->|].
    destruct (Ascii.eqb c' dash); [done|]. by rewrite (filter_alnum_dash dash _ eq_refl).
  - cbn [string_filter]. by rewrite IH.
Qed.

Lemma filter_alnum_strip_leading s :
  string_filter is_alnum (strip_leading_dash s) = string_filter is_alnum s.
Proof.
  destruct s as [|c rest]; [done|]. cbn [strip_leading_dash].
  destruct (Ascii.eqb c dash) eqn:Hd; [|done]. by rewrite (filter_alnum_dash c rest Hd).
Qed.

Lemma filter_alnum_strip_trailing s :
  string_filter is_alnum (strip_trailing_dash s) = string_filter is_alnum s.
Proof.
  induction s as [|c rest IH]; [done|]. destruct rest as [|c' r].
  - cbn [strip_trailing_dash]. destruct (Ascii.eqb c dash) eqn:Hd; [|done].
    by rewrite (filter_alnum_dash c _ Hd).
  - change (strip_trailing_dash (String c (String c' r)))
      with (String c (strip_trailing_dash (String c' r))).
    cbn [string_filter]. by rewrite IH.
Qed.

Lemma only_dashes_shape s :
  string_filter is_alnum s = EmptyString ->
  string_forall is_slug_char s = true ->
  starts_with_dash s = false -> s = EmptyString.
Proof.
  destruct s as [|c rest]; [done|]. cbn. intros Hf Hs Hd.
  apply andb_true_iff in Hs as [Hc _]. exfalso.
  destruct (is_alnum c) eqn:Ha; [discriminate|].
  revert Hc Ha Hd. clear. each_char c.
Qed.

Lemma slugify_shape_aux name :
  string_forall is_slug_char (slugify name) = true /\
  starts_with_dash (slugify name) = false /\
  ends_with_dash (slugify name) = false /\
  has_double_dash (slugify name) = false.
Proof.
  unfold slugify.
  set (s := collapse_dashes (replace_non_alnum (toLowerCase name))).
  assert (string_forall is_slug_char s = true) as Hs
    by apply collapse_forall, made_slug_chars.
  destruct (strip_leading_shape s (collapse_no_double _)) as [Hd Hl].
  destruct (strip_trailing_shape _ Hd) as [Hd' Ht].
  split; [by apply strip_trailing_forall, strip_leading_forall|].
  split; [by apply strip_trailing_starts|]. done.
Qed.

(** X19: The slug of a name is made of the characters [a-z], [0-9] and [-]
    only, does not start or end with a dash and has no two dashes in a
    row. *)
Theorem slugify_shape name :
  string_forall is_ascii name = true ->
  string_forall is_slug_char (slugify name) = true /\
  starts_with_dash (slugify name) = false /\
  ends_with_dash (slugify name) = false /\
  has_double_dash (slugify name) = false.
Proof. intros _. apply slugify_shape_aux. Qed.

Lemma slugify_shape_witness :
  slugify "  Mug, 2-Pack!  " = "mug-2-pack" /\
  string_forall is_slug_char (slugify "  Mug, 2-Pack!  ") = true /\
  starts_with_dash (slugify "  Mug, 2-Pack!  ") = false /\
  ends_with_dash (slugify "  Mug, 2-Pack!  ") = false /\
  has_double_dash (slugify "  Mug, 2-Pack!  ") = false.
Proof.
  split; [reflexivity|]. apply slugify_shape. reflexivity.
Defined.

(** X20: Computing the slug of a slug gives the same slug back. *)
Theorem slugify_idempotent name :
  string_forall is_ascii name = true ->
  slugify (slugify name) = slugify name.
Proof.
  intros Hascii. destruct (slugify_shape_aux name) as (Hc & Hl & Ht & Hd).
  unfold slugify at 1.
  by rewrite slug_chars_lower, slug_chars_kept, no_double_collapse, no_leading_strip,
    no_trailing_strip.
Qed.

Lemma slugify_idempotent_witness :
  slugify (slugify "  Mug, 2-Pack!  ") = slugify "  Mug, 2-Pack!  ".
Proof. apply slugify_idempotent. reflexivity. Defined.

(** X21: The letters and digits of the slug are the letters and digits of the
    name, in the same order, in lower case: nothing but other characters
    is dropped or replaced.  So a name without a letter or a digit has the
    empty slug. *)
Theorem slugify_keeps_letters_and_digits name :
  string_forall is_ascii name = true ->
  string_filter is_alnum (slugify name) = toLowerCase (string_filter is_alnum name) /\
  (string_filter is_alnum name = EmptyString -> slugify name = EmptyString).
Proof.
  intros _.
  assert (string_filter is_alnum (slugify name) = toLowerCase (string_filter is_alnum name))
    as Hkeep.
  { unfold slugify.
    by rewrite filter_alnum_strip_trailing, filter_alnum_strip_leading,
      filter_alnum_collapse, filter_alnum_replaced, filter_alnum_lower. }
  split; [done|]. intros Hnone. rewrite Hnone in Hkeep.
  destruct (slugify_shape_aux name) as (Hc & Hl & _).
  by apply only_dashes_shape.
Qed.

Lemma slugify_keeps_letters_and_digits_witness :
  string_filter is_alnum (slugify "  Mug, 2-Pack!  ") = "mug2pack" /\
  slugify "?! / --" = EmptyString.
Proof.
  split.
  - rewrite (proj1 (slugify_keeps_letters_and_digits "  Mug, 2-Pack!  " eq_refl)).
    reflexivity.
  - apply (proj2 (slugify_keeps_letters_and_digits "?! / --" eq_refl)). reflexivity.
Defined.

(** ** Free shipping and the grand total *)

(** X22: The grand total is not monotone in the subtotal: a subtotal of
    100.01 ships free and costs 110.01100000000001 in all, less than the
    120 that a subtotal of 100 costs with its shipping fee. *)
Theorem finalTotal_drops_at_free_shipping :
  (100 <? 100.01)%float = true /\
  finalTotal 100 = 120%float /\
  finalTotal 100.01 = 110.01100000000001%float /\
  (finalTotal 100.01 <? finalTotal 100)%float = true.
Proof. repeat split; vm_compute; reflexivity. Qed.

(** ** More on the checkout *)

Lemma snapshot_details ps (its : list CartItem) ois :
  Forall2 snapshot_of (map (populate_item ps) its) ois ->
  Forall (fun item => line_ok item = true) (map (populate_item ps) its) ->
  Forall2 (fun line oi =>
             exists p, ps !! product line = Some p /\
                       oi_name oi = name p /\
                       oi_image oi = first_or_empty (images p) /\
                       isActive p = true /\ quantity line <= stock p) its ois.
Proof.
  revert ois. induction its as [|line rest IH]; intros ois H2 Hall; inversion H2; subst.
  - constructor.
  - inversion Hall; subst. constructor; [|by apply IH].
    match goal with Hs : snapshot_of _ _ |- _ => destruct Hs as (p & Hp & ->) end.
    match goal with Hok : line_ok _ = true |- _ => unfold line_ok in Hok; rewrite Hp in Hok;
      apply andb_true_iff in Hok as [Ha Hs] end.
    apply negb_true_iff, Z.ltb_ge in Hs. cbn in *.
    exists p. repeat split; try done.
Qed.

(** X23: The order a checkout stores is for the requesting user, with the
    address and payment method of the request, under a new id; line by
    line it carries the name and the first image (or the empty string) of
    the product as it was at checkout, and every such product was active
    and had the quantity in stock. *)
Theorem createOrder_snapshots_products ok user sa pm w out w' o c :
  asyncHandler (createOrder ok user sa pm) w = (out, w') ->
  checkout_succeeded out o ->
  carts w !! user = Some c ->
  orders w' !! next_id w = Some o /\
  od_user (order_data o) = user /\
  od_shippingAddress (order_data o) = sa /\
  od_paymentMethod (order_data o) = pm /\
  Forall2 (fun line oi =>
             exists p, products w !! product line = Some p /\
                       oi_name oi = name p /\
                       oi_image oi = first_or_empty (images p) /\
                       isActive p = true /\ quantity line <= stock p)
          (items c) (od_orderItems (order_data o)).
Proof.
  intros Hrun Hok Hc.
  destruct (createOrder_success_inv _ _ _ _ _ _ _ _ Hrun Hok)
    as (c' & ois & total & Hc' & _ & Hchk & _ & -> & ->).
  rewrite Hc in Hc'. inversion Hc'; subst c'. clear Hc'.
  apply checkItems_inr in Hchk as (Hall & _ & new & -> & Hsnap).
  unfold lines_of in *. rewrite Hc in *.
  unfold db_after_checkout, order_of, new_order. cbn.
  split; [by rewrite lookup_insert_eq|]. repeat split; try done.
  by apply snapshot_details.
Qed.

Lemma createOrder_snapshots_products_witness :
  orders (after (createOrder accept_all 7%N anAddress "paypal")
            (shop sticker [mkCartItem 1%N 2 0.05])) !! 100%N =
    Some (order_of 7%N [mkOrderItem 1%N "Sticker" 2 0.05 ""] anAddress "paypal"
            0.1).
Proof.
  refine (proj1 (createOrder_snapshots_products accept_all 7%N anAddress "paypal"
                   (shop sticker [mkCartItem 1%N 2 0.05]) _ _
                   (order_of 7%N [mkOrderItem 1%N "Sticker" 2 0.05 ""] anAddress "paypal"
                      0.1)
                   (mkCart 3%N [mkCartItem 1%N 2 0.05])
                   (surjective_pairing _) _ eq_refl)).
  eexists. split; [reflexivity|]. split; reflexivity.
Defined.

(** X24: Two checkouts started together, each for one line of the same
    product and each within the stock on its own, both go through, and the
    stock ends at what it was minus both quantities, below zero when the
    two together exceed it. *)
Theorem interleaved_checkouts_both_go_through
    ok u1 u2 sa pm w id1 id2 productId q1 q2 pr1 pr2 prod :
  carts w !! u1 = Some (mkCart id1 [mkCartItem productId q1 pr1]) ->
  carts w !! u2 = Some (mkCart id2 [mkCartItem productId q2 pr2]) ->
  products w !! productId = Some prod -> isActive prod = true ->
  q1 <= stock prod -> q2 <= stock prod ->
  (forall d, ok d = true) ->
  is_success (fst (fst (createOrder_twice_interleaved ok u1 u2 sa pm w))) = true /\
  is_success (snd (fst (createOrder_twice_interleaved ok u1 u2 sa pm w))) = true /\
  stock <$> products (snd (createOrder_twice_interleaved ok u1 u2 sa pm w)) !! productId =
    Some (stock prod - q1 - q2).
Proof.
  intros Hc1 Hc2 Hp Hact H1 H2 Hok.
  unfold createOrder_twice_interleaved. rewrite Hc1, Hc2.
  cbn [fmap option_fmap option_map]. unfold populate_cart. cbn [cart_id items map].
  unfold asyncHandler.
  unfold populate_item. cbn [product quantity item_price]. rewrite Hp.
  rewrite (createOrder_after_read_run ok id1 u1 sa pm
             [mkPopulatedItem (Some prod) productId q1 pr1] w) by discriminate.
  cbn [checkItems p_product p_quantity p_price p_ref]. rewrite Hact. cbn [negb].
  rewrite (proj2 (Z.ltb_ge _ _) H1), Hok.
  rewrite (createOrder_after_read_run ok id2 u2 sa pm
             [mkPopulatedItem (Some prod) productId q2 pr2]) by discriminate.
  cbn [checkItems p_product p_quantity p_price p_ref]. rewrite Hact. cbn [negb].
  rewrite (proj2 (Z.ltb_ge _ _) H2), Hok. cbn.
  split; [done|]. split; [done|].
  rewrite !lookup_alter_eq, Hp. cbn. f_equal; lia.
Qed.

Lemma interleaved_checkouts_both_go_through_witness :
  is_success (fst (fst (createOrder_twice_interleaved accept_all 7%N 8%N anAddress "paypal"
                          shop_two_buyers))) = true /\
  is_success (snd (fst (createOrder_twice_interleaved accept_all 7%N 8%N anAddress "paypal"
                          shop_two_buyers))) = true /\
  stock <$> products (snd (createOrder_twice_interleaved accept_all 7%N 8%N anAddress
                             "paypal" shop_two_buyers)) !! 1%N =
    Some (stock lastMug - 1 - 1).
Proof.
  apply (interleaved_checkouts_both_go_through accept_all 7%N 8%N anAddress "paypal"
           shop_two_buyers 3%N 4%N 1%N 1 1 50 50 lastMug);
    [reflexivity | reflexivity | reflexivity | reflexivity | cbn; lia | cbn; lia | done].
Defined.
